(** * The Prophet wrapper of NeuralProphet (neuralprophet/wrapper.py)

    A shallow embedding of the class [Prophet(NeuralProphet)]: the
    constructor, [fit], [predict], [make_future_dataframe], [plot] and
    [plot_components], and of the helpers [plot_plotly] and
    [plot_components_plotly].  The
    superclass (the forecasting engine) is an interface; every call the
    wrapper makes to it is recorded, so that what is forwarded can be
    stated for every engine. *)

From Stdlib Require Import ZArith List String Ascii Bool Lia.
Import ListNotations.

Local Open Scope string_scope.
Local Open Scope Z_scope.
Local Open Scope list_scope.

(** ** Python values *)

(** Scalars as they occur in keyword arguments and in the cells of a
    pandas column.  A float is its IEEE-754 binary64 bit pattern. *)
Inductive atom : Type :=
| ANone
| ABool (b : bool)
| AInt (z : Z)
| AFloat (bits : Z)
| AStr (s : string).

Inductive value : Type :=
| VAtom (a : atom)
| VList (items : list atom).

Coercion VAtom : atom >-> value.

Definition atom_eq_dec (a b : atom) : {a = b} + {a <> b}.
Proof.
  decide equality;
    first [apply Bool.bool_dec | apply Z.eq_dec | apply string_dec].
Defined.

(** [float("nan")], the result pandas gives for the maximum of an empty
    column. *)
Definition NaN : atom := AFloat 0x7FF8000000000000.

(** Python truth value testing ([bool(x)]): [None], [False], zero of any
    numeric type and empty sequences are false. *)
Definition atom_truthy (a : atom) : bool :=
  match a with
  | ANone => false
  | ABool b => b
  | AInt z => negb (z =? 0)
  | AFloat bits => negb (Z.land bits 0x7FFFFFFFFFFFFFFF =? 0)
  | AStr s => negb (String.eqb s "")
  end.

Definition truthy (v : value) : bool :=
  match v with
  | VAtom a => atom_truthy a
  | VList items => match items with [] => false | _ :: _ => true end
  end.

(** Keyword arguments, in call order. *)
Definition kwargs : Type := list (string * value).

Definition keys (kw : kwargs) : list string := map fst kw.

Definition has_key (k : string) (kw : kwargs) : bool :=
  existsb (String.eqb k) (keys kw).

(** [del kwargs[k]] *)
Definition del_key (k : string) (kw : kwargs) : kwargs :=
  filter (fun p => negb (String.eqb k (fst p))) kw.

(** ** Exceptions *)

(** The error kinds named by the specification; the wrapper itself never
    raises them, an engine may. *)
Inductive ErrorKind : Type :=
| ConfigurationError
| InvalidArgumentError
| PrerequisiteError
| UnsupportedFeatureError.

Inductive exn : Type :=
| KeyError (key : string)
| AttributeError (type_name attr : string)
| TypeError_multiple_values (keyword : string)
| NotImplementedError (msg : string)
| SpecError (kind : ErrorKind)
| Unmodelled (what : string).

Definition res (A : Type) : Type := (exn + A)%type.

Definition Ok {A} (a : A) : res A := inr a.
Definition Err {A} (e : exn) : res A := inl e.

Definition res_bind {A B} (r : res A) (k : A -> res B) : res B :=
  match r with
  | inl e => inl e
  | inr a => k a
  end.

(** ** Strings: [sub in s] and [s.replace(old, new)] *)

Fixpoint contains (sub s : string) : bool :=
  prefix sub s ||
  match s with
  | EmptyString => false
  | String _ s' => contains sub s'
  end.

(** [s.replace(old, new)] for a non-empty [old]: occurrences are replaced
    from left to right and do not overlap.  [skip] counts the characters
    of the occurrence just replaced that are still to be dropped. *)
Fixpoint replace_from (old new : string) (skip : nat) (s : string) : string :=
  match s with
  | EmptyString => EmptyString
  | String c s' =>
      match skip with
      | S k => replace_from old new k s'
      | O =>
          if prefix old s
          then new ++ replace_from old new (Nat.pred (String.length old)) s'
          else String c (replace_from old new O s')
      end
  end.

Definition replace (old new s : string) : string := replace_from old new O s.

(** ** pandas data frames *)

Definition Series : Type := list atom.

(** Columns in order, each with its cells.  Column labels are taken to be
    distinct, as pandas frames built from dictionaries are. *)
Definition DataFrame : Type := list (string * Series).

Definition columns (df : DataFrame) : list string := map fst df.

(** [df[c]] *)
Fixpoint getitem (df : DataFrame) (c : string) : res Series :=
  match df with
  | [] => Err (KeyError c)
  | (c', s) :: rest => if String.eqb c c' then Ok s else getitem rest c
  end.

(** [df[c] = s]: an existing column is overwritten in place, a new one is
    appended. *)
Fixpoint setitem (df : DataFrame) (c : string) (s : Series) : DataFrame :=
  match df with
  | [] => [(c, s)]
  | (c', s') :: rest =>
      if String.eqb c c' then (c', s) :: rest else (c', s') :: setitem rest c s
  end.

(** [df.copy()]: frames are values here, a copy is the frame itself. *)
Definition copy (df : DataFrame) : DataFrame := df.

(** [df.rename(columns={old: new})] *)
Definition rename (old new : string) (df : DataFrame) : DataFrame :=
  map (fun p => (if String.eqb (fst p) old then new else fst p, snd p)) df.

(** [df.drop(labels, axis=1, errors="ignore")] *)
Definition drop (labels : list string) (df : DataFrame) : DataFrame :=
  filter (fun p => negb (existsb (String.eqb (fst p)) labels)) df.

(** [s.unique()]: the distinct cells in order of first appearance. *)
Fixpoint unique_from (seen : list atom) (s : Series) : list atom :=
  match s with
  | [] => []
  | a :: rest =>
      if in_dec atom_eq_dec a seen then unique_from seen rest
      else a :: unique_from (a :: seen) rest
  end.

Definition unique (s : Series) : list atom := unique_from [] s.

(** The cells of an integer (int64) column. *)
Fixpoint ints_of (s : Series) : option (list Z) :=
  match s with
  | [] => Some []
  | AInt z :: rest => option_map (cons z) (ints_of rest)
  | _ :: _ => None
  end.

(** [s.max()]: NaN for an empty column, the largest cell of an integer
    column.  Window columns hold integers; columns of other cells are
    not covered by this model. *)
Definition Series_max (s : Series) : res atom :=
  match s with
  | [] => Ok NaN
  | _ :: _ =>
      match ints_of s with
      | Some (z :: zs) => Ok (AInt (fold_left Z.max zs z))
      | _ => Err (Unmodelled "max of a column that is not int64")
      end
  end.

(** ** The superclass: the NeuralProphet engine *)

(** The methods of [NeuralProphet] the wrapper calls through [super()].
    [E] is the engine's share of the object's state; a method returns its
    result or the exception it raises, and the state it leaves. *)
Class NeuralProphet (E : Type) : Type := {
  np_new : E;
  np_init : kwargs -> E -> res unit * E;
  np_add_events : list atom -> atom -> atom -> E -> res unit * E;
  np_create_df_with_events : DataFrame -> DataFrame -> E -> res DataFrame * E;
  np_fit : DataFrame -> kwargs -> E -> res (option DataFrame) * E;
  np_predict : DataFrame -> kwargs -> E -> res DataFrame * E;
  np_make_future_dataframe :
    option DataFrame -> option DataFrame -> Z -> bool -> kwargs ->
    E -> res DataFrame * E
}.

(** A call made to the engine, with the arguments it was given. *)
Inductive Call : Type :=
| Call_init (kw : kwargs)
| Call_add_events (events : list atom) (lower_window upper_window : atom)
| Call_create_df_with_events (df events_df : DataFrame)
| Call_fit (df : DataFrame) (kw : kwargs)
| Call_predict (df : DataFrame) (kw : kwargs)
| Call_make_future_dataframe
    (df events_df : option DataFrame) (periods : Z)
    (n_historic_predictions : bool) (kw : kwargs).

(** ** The Prophet object *)

(** [events_df] is [None] while the attribute does not exist
    ([hasattr(self, "events_df")] is false); [history] is [None] while the
    attribute holds Python's [None].  [attrs] holds the plain attributes
    the constructor overwrites.  [log] collects the [log.info] messages
    and [calls] the calls made to the engine, oldest first. *)
Record Prophet (E : Type) : Type := mkProphet {
  engine : E;
  events_df : option DataFrame;
  history : option DataFrame;
  attrs : list (string * value);
  log : list string;
  calls : list Call
}.

Arguments mkProphet {E}.
Arguments engine {E}.
Arguments events_df {E}.
Arguments history {E}.
Arguments attrs {E}.
Arguments log {E}.
Arguments calls {E}.

(** The object before its constructor has run. *)
Definition blank {E} `{NeuralProphet E} : Prophet E :=
  mkProphet np_new None None [] [] [].

(** ** A state and exception monad for method bodies *)

Definition M (E A : Type) : Type := Prophet E -> res A * Prophet E.

Definition ret {E A} (a : A) : M E A := fun s => (Ok a, s).

Definition raise {E A} (e : exn) : M E A := fun s => (Err e, s).

Definition bind {E A B} (m : M E A) (k : A -> M E B) : M E B :=
  fun s =>
    match m s with
    | (inl e, s') => (inl e, s')
    | (inr a, s') => k a s'
    end.

Notation "x <- m ;; k" := (bind m (fun x => k))
  (at level 61, m at next level, right associativity).
Notation "m ;;; k" := (bind m (fun _ => k))
  (at level 61, right associativity).

Definition lift {E A} (r : res A) : M E A := fun s => (r, s).

Definition get {E} : M E (Prophet E) := fun s => (Ok s, s).

Definition log_info {E} (msg : string) : M E unit :=
  fun s => (Ok tt, mkProphet (engine s) (events_df s) (history s) (attrs s)
                             (log s ++ [msg]) (calls s)).

Definition set_events_df {E} (df : DataFrame) : M E unit :=
  fun s => (Ok tt, mkProphet (engine s) (Some df) (history s) (attrs s)
                             (log s) (calls s)).

Definition set_history {E} (h : option DataFrame) : M E unit :=
  fun s => (Ok tt, mkProphet (engine s) (events_df s) h (attrs s)
                             (log s) (calls s)).

Definition set_attr {E} (k : string) (v : value) : M E unit :=
  fun s => (Ok tt, mkProphet (engine s) (events_df s) (history s)
                             ((k, v) :: del_key k (attrs s))
                             (log s) (calls s)).

(** [super(Prophet, self).method(...)]: the call is recorded and the
    engine's method runs on the engine's share of the state. *)
Definition super {E A} (c : Call) (method : E -> res A * E) : M E A :=
  fun s =>
    let '(r, e') := method (engine s) in
    (r, mkProphet e' (events_df s) (history s) (attrs s)
                  (log s) (calls s ++ [c])).

(** A call [f(k1=..., **kwargs)] raises [TypeError] when [kwargs] repeats
    a keyword given explicitly; the callee's body does not run. *)
Definition no_clash (explicit : list string) (extra : kwargs) : res unit :=
  match find (fun p => existsb (String.eqb (fst p)) explicit) extra with
  | Some (k, _) => Err (TypeError_multiple_values k)
  | None => Ok tt
  end.

(** ** Prophet.__init__ *)

Record InitArgs : Type := mkInitArgs {
  growth : value;
  changepoints : value;
  n_changepoints : value;
  changepoint_range : value;
  yearly_seasonality : value;
  weekly_seasonality : value;
  daily_seasonality : value;
  holidays : option DataFrame;
  seasonality_mode : value;
  seasonality_prior_scale : value;
  holidays_prior_scale : value;
  changepoint_prior_scale : value;
  mcmc_samples : value;
  interval_width : value;
  uncertainty_samples : value;
  stan_backend : value;
  extra_kwargs : kwargs
}.

(** The defaults of the signature; [0.8] is the float 0x3FE999999999999A. *)
Definition default_args : InitArgs :=
  mkInitArgs (AStr "linear") ANone (AInt 25) (AFloat 0x3FE999999999999A)
             (AStr "auto") (AStr "auto") (AStr "auto") None
             (AStr "additive") ANone ANone ANone ANone
             (AFloat 0x3FE999999999999A) ANone ANone [].

Definition prior_scale_msg : string :=
  "Using `_prior_scale` is unsupported for regularisation in NeuralProphet, please use the `_reg` args instead.".

Definition samples_msg : string :=
  "Providing the number of samples for Bayesian inference or Uncertainty estimation is not required in NeuralProphet.".

Definition stan_backend_msg : string :=
  "A stan_backend is not used in NeuralProphet. Please remove the parameter".

(** The keyword arguments written out in the call of the engine's
    constructor (lines 86-95). *)
Definition engine_keywords (a : InitArgs) : kwargs :=
  [ ("growth", growth a);
    ("changepoints", changepoints a);
    ("n_changepoints", n_changepoints a);
    ("changepoints_range", changepoint_range a);
    ("yearly_seasonality", yearly_seasonality a);
    ("weekly_seasonality", weekly_seasonality a);
    ("daily_seasonality", daily_seasonality a);
    ("seasonality_mode", seasonality_mode a);
    ("prediction_interval", interval_width a) ].

Section Wrapper.

Context {E : Type} `{NeuralProphet E}.

Definition when (b : bool) (m : M E unit) : M E unit :=
  if b then m else ret tt.

(** Lines 74-84: "Check for unsupported features". *)
Definition check_unsupported (a : InitArgs) : M E unit :=
  when (truthy (seasonality_prior_scale a)
        || truthy (holidays_prior_scale a)
        || truthy (changepoint_prior_scale a))
       (log_info prior_scale_msg) ;;;
  when (truthy (mcmc_samples a) || truthy (uncertainty_samples a))
       (log_info samples_msg) ;;;
  when (truthy (stan_backend a)) (log_info stan_backend_msg).

(** Lines 85-97: "Run the NeuralProphet function". *)
Definition init_engine (a : InitArgs) : M E unit :=
  lift (no_clash (keys (engine_keywords a)) (extra_kwargs a)) ;;;
  super (Call_init (engine_keywords a ++ extra_kwargs a))
        (np_init (engine_keywords a ++ extra_kwargs a)).

(** Lines 98-107: "Handle holidays as events". *)
Definition handle_holidays (h : DataFrame) : M E unit :=
  names <- lift (getitem h "holiday") ;;
  lower <- lift (getitem h "lower_window") ;;
  lower_window <- lift (Series_max lower) ;;
  upper <- lift (getitem h "upper_window") ;;
  upper_window <- lift (Series_max upper) ;;
  super (Call_add_events (unique names) lower_window upper_window)
        (np_add_events (unique names) lower_window upper_window) ;;;
  set_events_df
    (drop ["lower_window"; "upper_window"] (rename "holiday" "event" (copy h))).

(** Lines 109-114: "Overwrite NeuralProphet properties" and "Unused
    properties". *)
Definition overwrite_properties : M E unit :=
  set_attr "name" (AStr "Prophet") ;;;
  set_history None ;;;
  set_attr "train_holiday_names" ANone.

Definition __init__ (a : InitArgs) : M E unit :=
  check_unsupported a ;;;
  init_engine a ;;;
  match holidays a with
  | Some h => handle_holidays h
  | None => ret tt
  end ;;;
  overwrite_properties.

(** [Prophet(...)]: the constructor run on a new object. *)
Definition construct (a : InitArgs) : res unit * Prophet E :=
  __init__ a blank.

(** ** Prophet.fit *)

Definition cap_msg : string :=
  "Saturating forecasts using cap is not supported in NeuralProphet.".

Definition fit (df : DataFrame) (kw : kwargs) : M E (option DataFrame) :=
  (if existsb (String.eqb "cap") (columns df)
   then raise (NotImplementedError cap_msg) else ret tt) ;;;
  let kw := if has_key "show_progress" kw then del_key "show_progress" kw
            else kw in
  self <- get ;;
  df <- match events_df self with
        | Some ev => super (Call_create_df_with_events df ev)
                           (np_create_df_with_events df ev)
        | None => ret df
        end ;;
  lift (no_clash ["df"] kw) ;;;
  metrics_df <- super (Call_fit df kw) (np_fit df kw) ;;
  set_history (Some df) ;;;
  ret metrics_df.

(** ** Prophet.predict *)

(** One turn of the loop of lines 216-219. *)
Definition copy_event_column (df : DataFrame) (column : string)
  : res DataFrame :=
  if contains "event_" column
  then res_bind (getitem df column)
                (fun s => Ok (setitem df (replace "event_" "" column) s))
  else Ok df.

(** The loop runs over the column index as it was when the loop began;
    the assignments act on the frame as it is by then. *)
Fixpoint copy_event_columns (cols : list string) (df : DataFrame)
  : res DataFrame :=
  match cols with
  | [] => Ok df
  | column :: rest =>
      res_bind (copy_event_column df column) (copy_event_columns rest)
  end.

Definition predict (df : option DataFrame) (kw : kwargs) : M E DataFrame :=
  self <- get ;;
  df <- match df with
        | Some d => ret d
        | None =>
            match history self with
            | Some h => ret (copy h)
            | None => raise (AttributeError "NoneType" "copy")
            end
        end ;;
  lift (no_clash ["df"] kw) ;;;
  df <- super (Call_predict df kw) (np_predict df kw) ;;
  lift (copy_event_columns (columns df) df).

(** ** Prophet.make_future_dataframe *)

(** Lines 251-253: all frequencies are converted to daily. *)
Definition convert_periods (freq : string) (periods : Z) : Z :=
  if String.eqb freq "M" then periods * 30 else periods.

Definition make_future_dataframe
    (periods : Z) (freq : string) (include_history : bool) (kw : kwargs)
  : M E DataFrame :=
  let periods := convert_periods freq periods in
  self <- get ;;
  match events_df self with
  | Some ev =>
      lift (no_clash ["df"; "events_df"; "periods"; "n_historic_predictions"]
                     kw) ;;;
      super (Call_make_future_dataframe (history self) (Some ev) periods
                                        include_history kw)
            (np_make_future_dataframe (history self) (Some ev) periods
                                      include_history kw)
  | None =>
      lift (no_clash ["df"; "periods"; "n_historic_predictions"] kw) ;;;
      super (Call_make_future_dataframe (history self) None periods
                                        include_history kw)
            (np_make_future_dataframe (history self) None periods
                                      include_history kw)
  end.

End Wrapper.

Arguments engine_keywords : simpl never.
Arguments handle_holidays : simpl never.

(** ** An engine after the specification *)

(** [neuralprophet/forecaster.py] is not among the sources.  Where a
    statement needs a running engine, this one is used: its calendar and
    horizon operations follow sections 4.1, 4.2 and 7 of the
    specification.  Dates are day numbers, held as integers in the column
    "ds". *)
Module SpecEngine.

Record State : Type := mkState {
  vocabulary : list (string * (Z * Z));
  fitted : bool
}.

Definition dates_of (df : DataFrame) : res (list Z) :=
  res_bind (getitem df "ds")
           (fun s => match ints_of s with
                     | Some ds => Ok ds
                     | None => Err (Unmodelled "dates that are not day numbers")
                     end).

Fixpoint names_of (events : list atom) : option (list string) :=
  match events with
  | [] => Some []
  | AStr n :: rest => option_map (cons n) (names_of rest)
  | _ :: _ => None
  end.

(** Modelled from the spec: the engine's [add_events], after [register]
    of section 4.1: it validates [lower_window <= 0 <= upper_window] and
    stores the names as the known event vocabulary, each with the window
    it was registered with; without a name there is nothing to validate
    or store (a table of zero rows is not an error). *)
Definition register (events : list atom) (lower upper : atom) (st : State)
  : res unit * State :=
  match names_of events, lower, upper with
  | Some [], _, _ => (Ok tt, st)
  | Some names, AInt lo, AInt hi =>
      if (lo <=? 0) && (0 <=? hi)
      then (Ok tt,
            mkState (vocabulary st ++ map (fun n => (n, (lo, hi))) names)
                    (fitted st))
      else (Err (SpecError ConfigurationError), st)
  | _, _, _ => (Err (SpecError ConfigurationError), st)
  end.

(** Modelled from the spec: [expand] of section 4.1: every occurrence
    date [d] stands for the days [d + lower .. d + upper]; a day is in the
    expansion when it lies in the window of some occurrence. *)
Definition in_expansion (occurrences : list Z) (window : Z * Z) (day : Z)
  : bool :=
  existsb (fun d => (d + fst window <=? day) && (day <=? d + snd window))
          occurrences.

(** The occurrence dates of one name in an events table (columns "event"
    and "ds"). *)
Definition occurrences (events_df : DataFrame) (n : string) : res (list Z) :=
  res_bind (getitem events_df "event") (fun names =>
  res_bind (dates_of events_df) (fun ds =>
  Ok (map snd (filter (fun p => if atom_eq_dec (fst p) (AStr n)
                                then true else false)
                      (combine names ds))))).

(** Modelled from the spec: [attach] of section 4.1: one boolean column
    per known event name, true on the dates inside the expanded window;
    a column the frame already has is overwritten. *)
Fixpoint attach (frame : DataFrame) (known : list (string * (Z * Z)))
    (events_df : DataFrame) : res DataFrame :=
  match known with
  | [] => Ok frame
  | (n, w) :: rest =>
      res_bind (dates_of frame) (fun ds =>
      res_bind (occurrences events_df n) (fun occ =>
      attach (setitem frame n (map (fun d => ABool (in_expansion occ w d)) ds))
             rest events_df))
  end.

(** Modelled from the spec: [extend] of section 4.2: [periods] new
    timestamps starting immediately after the last date of the history,
    one day apart, after the history's own timestamps if they are asked
    for. *)
Definition extend (history : list Z) (periods : Z) (include_history : bool)
  : list Z :=
  (if include_history then history else [])
  ++ map (fun k => last history 0 + 1 + Z.of_nat k)
         (seq 0 (Z.to_nat periods)).

(** A history is empty when it has no column or no row ([df.empty]). *)
Definition frame_empty (df : DataFrame) : bool :=
  match df with
  | [] => true
  | (_, []) :: _ => true
  | (_, _ :: _) :: _ => false
  end.

(** Modelled from the spec: the engine's [make_future_dataframe], the
    Forecast Horizon Builder of section 4.2 with its failure policy:
    non-positive [periods] is an [InvalidArgumentError], an absent or
    empty history a [PrerequisiteError]; events are attached again over
    the whole extended range. *)
Definition horizon (df events_df : option DataFrame) (periods : Z)
    (n_historic_predictions : bool) (kw : kwargs) (st : State)
  : res DataFrame * State :=
  if periods <=? 0 then (Err (SpecError InvalidArgumentError), st)
  else
    match df with
    | None => (Err (SpecError PrerequisiteError), st)
    | Some h =>
        if frame_empty h then (Err (SpecError PrerequisiteError), st)
        else
          (res_bind (dates_of h) (fun ds =>
             let frame :=
               [("ds", map AInt (extend ds periods n_historic_predictions))] in
             match events_df with
             | Some ev => attach frame (vocabulary st) ev
             | None => Ok frame
             end), st)
    end.

Section Forecaster.

(** Fitting and prediction proper are outside the specification's core:
    they are parameters of this engine. *)
Variable fit_model : DataFrame -> kwargs -> res (option DataFrame).
Variable forecast : DataFrame -> kwargs -> res DataFrame.

Definition fit_engine (df : DataFrame) (kw : kwargs) (st : State)
  : res (option DataFrame) * State :=
  match fit_model df kw with
  | inl e => (inl e, st)
  | inr metrics => (Ok metrics, mkState (vocabulary st) true)
  end.

(** Modelled from the spec: predicting before any fit is a
    [PrerequisiteError] (section 7). *)
Definition predict_engine (df : DataFrame) (kw : kwargs) (st : State)
  : res DataFrame * State :=
  if fitted st then (forecast df kw, st)
  else (Err (SpecError PrerequisiteError), st).

Definition spec_engine : NeuralProphet State := {|
  np_new := mkState [] false;
  np_init := fun _ st => (Ok tt, st);
  np_add_events := register;
  np_create_df_with_events :=
    fun df ev st => (attach df (vocabulary st) ev, st);
  np_fit := fit_engine;
  np_predict := predict_engine;
  np_make_future_dataframe := horizon
|}.

End Forecaster.

End SpecEngine.

(** ** Concrete engines and inputs *)

(** The specification's engine with a forecaster that fits anything and
    answers every prediction with the table [T]. *)
Definition engine_returning (T : DataFrame) : NeuralProphet SpecEngine.State :=
  SpecEngine.spec_engine (fun _ _ => Ok None) (fun _ _ => Ok T).

Definition engine0 : NeuralProphet SpecEngine.State := engine_returning [].

(** [Prophet(holidays=h)] *)
Definition with_holidays (h : DataFrame) : InitArgs :=
  mkInitArgs (growth default_args) (changepoints default_args)
             (n_changepoints default_args) (changepoint_range default_args)
             (yearly_seasonality default_args)
             (weekly_seasonality default_args)
             (daily_seasonality default_args) (Some h)
             (seasonality_mode default_args) ANone ANone ANone ANone
             (interval_width default_args) ANone ANone [].

(** The arguments with the six parameters that have no counterpart in the
    engine left at their default [None]. *)
Definition without_legacy (a : InitArgs) : InitArgs :=
  mkInitArgs (growth a) (changepoints a) (n_changepoints a)
             (changepoint_range a) (yearly_seasonality a)
             (weekly_seasonality a) (daily_seasonality a) (holidays a)
             (seasonality_mode a) ANone ANone ANone ANone
             (interval_width a) ANone ANone (extra_kwargs a).

(** [Prophet(mcmc_samples=n)] *)
Definition with_mcmc_samples (n : value) : InitArgs :=
  mkInitArgs (growth default_args) (changepoints default_args)
             (n_changepoints default_args) (changepoint_range default_args)
             (yearly_seasonality default_args)
             (weekly_seasonality default_args)
             (daily_seasonality default_args) None
             (seasonality_mode default_args) ANone ANone ANone n
             (interval_width default_args) ANone ANone [].

Definition with_log {E} (l : list string) (s : Prophet E) : Prophet E :=
  mkProphet (engine s) (events_df s) (history s) (attrs s) l (calls s).

Definition with_history {E} (h : option DataFrame) (s : Prophet E)
  : Prophet E :=
  mkProphet (engine s) (events_df s) h (attrs s) (log s) (calls s).

(** Two occurrences of one name with windows [-1,1] and [-2,0]. *)
Definition diwali : DataFrame :=
  [ ("holiday", [AStr "Diwali"; AStr "Diwali"]);
    ("ds", [AInt 19300; AInt 19654]);
    ("lower_window", [AInt (-1); AInt (-2)]);
    ("upper_window", [AInt 1; AInt 0]) ].


(** A holidays table without its date column. *)
Definition no_dates : DataFrame :=
  [ ("holiday", [AStr "NewYear"]);
    ("lower_window", [AInt (-1)]);
    ("upper_window", [AInt 0]) ].

(** A holidays table without the optional window columns. *)
Definition no_windows : DataFrame :=
  [ ("holiday", [AStr "NewYear"]); ("ds", [AInt 19358]) ].



(** ** Notions used in the statements *)


(** The arguments with another holidays table. *)
Definition set_holidays (h : option DataFrame) (a : InitArgs) : InitArgs :=
  mkInitArgs (growth a) (changepoints a) (n_changepoints a)
             (changepoint_range a) (yearly_seasonality a)
             (weekly_seasonality a) (daily_seasonality a) h
             (seasonality_mode a) (seasonality_prior_scale a)
             (holidays_prior_scale a) (changepoint_prior_scale a)
             (mcmc_samples a) (interval_width a) (uncertainty_samples a)
             (stan_backend a) (extra_kwargs a).

(** The notices the constructor logs, in order. *)
Definition advisories (a : InitArgs) : list string :=
  (if truthy (seasonality_prior_scale a)
      || truthy (holidays_prior_scale a)
      || truthy (changepoint_prior_scale a)
   then [prior_scale_msg] else [])
  ++ (if truthy (mcmc_samples a) || truthy (uncertainty_samples a)
      then [samples_msg] else [])
  ++ (if truthy (stan_backend a) then [stan_backend_msg] else []).

(** A computation that neither reads nor writes the log. *)
Definition log_blind {E A} (m : M E A) : Prop :=
  forall l s, m (with_log l s) = (fst (m s), with_log l (snd (m s))).

(** The events table the constructor stores for a holidays table. *)
Definition events_table (h : DataFrame) : DataFrame :=
  drop ["lower_window"; "upper_window"] (rename "holiday" "event" (copy h)).

(** The object without its events table. *)
Definition forget_events {E} (s : Prophet E) : Prophet E :=
  mkProphet (engine s) None (history s) (attrs s) (log s) (calls s).

(** The keywords [make_future_dataframe] writes out in its call of the
    engine; extra keyword arguments that repeat none of them pass
    through. *)
Definition passes_through (kw : kwargs) : Prop :=
  forall k, In k (keys kw) ->
            ~ In k ["df"; "events_df"; "periods"; "n_historic_predictions"].

(** No assignment of the loop of [predict] falls on a column of the
    table. *)
Definition copies_are_new (T : DataFrame) : Prop :=
  forall c, In c (columns T) -> contains "event_" c = true ->
            ~ In (replace "event_" "" c) (columns T).

(** ** Models and tables for the examples *)

(** [Prophet()] on the specification's engine. *)
Definition new_model : Prophet SpecEngine.State :=
  snd (@construct _ engine0 default_args).

Definition two_day_history : DataFrame :=
  [("ds", [AInt 19000; AInt 19001]); ("y", [AInt 5; AInt 6])].

(** A model that has a two-day history and no holidays. *)
Definition fitted_model : Prophet SpecEngine.State :=
  with_history (Some two_day_history) new_model.

(** A model whose stored history has no row. *)
Definition empty_history_model : Prophet SpecEngine.State :=
  with_history (Some [("ds", []); ("y", [])]) new_model.


(** [Prophet(prediction_interval=0.8)] *)
Definition repeated_keyword : InitArgs :=
  mkInitArgs (growth default_args) (changepoints default_args)
             (n_changepoints default_args) (changepoint_range default_args)
             (yearly_seasonality default_args)
             (weekly_seasonality default_args)
             (daily_seasonality default_args) None
             (seasonality_mode default_args) ANone ANone ANone ANone
             (interval_width default_args) ANone ANone
             [("prediction_interval", VAtom (AFloat 0x3FE999999999999A))].

(** A holidays table without the name column. *)
Definition no_names : DataFrame :=
  [ ("ds", [AInt 19358]);
    ("lower_window", [AInt (-1)]);
    ("upper_window", [AInt 0]) ].

(** One holiday named [n], on day 19003, with window [0,0]. *)
Definition one_holiday (n : string) : DataFrame :=
  [ ("holiday", [AStr n]); ("ds", [AInt 19003]);
    ("lower_window", [AInt 0]); ("upper_window", [AInt 0]) ].

(** The engine's table for a holiday named [n]: the forecast and the
    component of the event. *)
Definition engine_table (n : string) : DataFrame :=
  [ ("ds", [AInt 19002; AInt 19003]);
    ("yhat1", [AInt 42; AInt 43]);
    (("event_" ++ n)%string, [AInt 0; AInt 7]) ].

Definition two_future_days : DataFrame := [("ds", [AInt 19002; AInt 19003])].

(** Construction with a holidays table [h] and a fit on the two-day
    history, with the engine whose forecaster answers [T]. *)
Definition fitted_with (T h : DataFrame) : Prophet SpecEngine.State :=
  snd (@fit _ (engine_returning T) two_day_history []
         (snd (@construct _ (engine_returning T) (with_holidays h)))).

(** The frame [predict] returns for the two days after the history. *)
Definition forecast_with (T h : DataFrame) : res DataFrame :=
  fst (@predict _ (engine_returning T) (Some two_future_days) []
         (fitted_with T h)).

(** New Year's Day 2023 (day 19358) with the day before it, and the
    twelve days from 25 December 2022 to 5 January 2023. *)
Definition new_year : DataFrame :=
  [ ("holiday", [AStr "NewYear"]); ("ds", [AInt 19358]);
    ("lower_window", [AInt (-1)]); ("upper_window", [AInt 0]) ].

Definition twelve_days : DataFrame :=
  [ ("ds", map (fun k => AInt (19351 + Z.of_nat k)) (seq 0 12));
    ("y", map (fun k => AInt (Z.of_nat k)) (seq 0 12)) ].

(** ** Plotting: Prophet.plot, plot_components and the plotly helpers *)

(** The objects handed around by the plotting functions: plain values,
    frames, tuples, and anything else (axes, figures) by name. *)
Inductive pyobj : Type :=
| PVal (v : value)
| PFrame (df : DataFrame)
| PTuple (items : list atom)
| PRef (name : string).

Definition pykwargs : Type := list (string * pyobj).

(** The ways a call can fail to bind its arguments; each of them is a
    [TypeError] in Python. *)
Inductive TypeError : Type :=
| UnexpectedKeyword (keyword : string)
| MultipleValues (keyword : string)
| TooManyPositional
| MissingArgument (parameter : string).

(** What a plotting function raises: a [TypeError] of the call, or the
    exception of the engine. *)
Inductive plot_error : Type :=
| Call_error (t : TypeError)
| Raised (e : exn).

(** A signature without [*args] and [**kwargs]: the parameters after
    [self], each with its default if it has one. *)
Definition signature : Type := list (string * option pyobj).

Fixpoint lookup (k : string) (kw : pykwargs) : option pyobj :=
  match kw with
  | [] => None
  | (k', v) :: rest => if String.eqb k k' then Some v else lookup k rest
  end.

(** The positional arguments fill the parameters from the left; the
    arguments left over are returned. *)
Fixpoint bind_positional (sig : signature) (positional : list pyobj)
  : pykwargs * list pyobj :=
  match sig, positional with
  | (p, _) :: sig', v :: rest =>
      let '(bound, excess) := bind_positional sig' rest in
      ((p, v) :: bound, excess)
  | _, _ => ([], positional)
  end.

(** The keyword arguments, in call order: a keyword that names no
    parameter, or a parameter that has its value already, is an error. *)
Fixpoint bind_keywords (sig : signature) (bound : pykwargs) (kw : pykwargs)
  : TypeError + pykwargs :=
  match kw with
  | [] => inr bound
  | (k, v) :: rest =>
      if negb (existsb (String.eqb k) (map fst sig))
      then inl (UnexpectedKeyword k)
      else match lookup k bound with
           | Some _ => inl (MultipleValues k)
           | None => bind_keywords sig (bound ++ [(k, v)]) rest
           end
  end.

(** The parameters still without a value take their defaults. *)
Fixpoint bind_defaults (sig : signature) (bound : pykwargs)
  : TypeError + pykwargs :=
  match sig with
  | [] => inr []
  | (p, default) :: sig' =>
      match lookup p bound, default with
      | Some v, _ | None, Some v =>
          match bind_defaults sig' bound with
          | inl t => inl t
          | inr args => inr ((p, v) :: args)
          end
      | None, None => inl (MissingArgument p)
      end
  end.

(** Binding the arguments of a call to a signature, in the order in
    which Python reports the errors: keywords first, then the number of
    positional arguments, then the missing ones. *)
Definition bind_arguments (sig : signature) (positional : list pyobj)
    (kw : pykwargs) : TypeError + pykwargs :=
  let '(bound, excess) := bind_positional sig positional in
  match bind_keywords sig bound kw with
  | inl t => inl t
  | inr bound' =>
      match excess with
      | _ :: _ => inl TooManyPositional
      | [] => bind_defaults sig bound'
      end
  end.

(** A call [f(..., k=v, **kwargs)]: the keywords written out, then the
    extra ones, which must repeat none of them. *)
Definition call_keywords (explicit extra : pykwargs) : TypeError + pykwargs :=
  match find (fun p => existsb (String.eqb (fst p)) (map fst explicit)) extra
  with
  | Some (k, _) => inl (MultipleValues k)
  | None => inr (explicit ++ extra)
  end.

(** The value of a bound parameter. *)
Definition arg (p : string) (args : pykwargs) : pyobj :=
  match lookup p args with
  | Some v => v
  | None => PVal ANone
  end.

(** The engine's [plot]. *)
Class NeuralProphetPlot (E : Type) : Type := {
  np_plot : pykwargs -> E -> res pyobj * E
}.

(** The model together with the [log.warn] messages and the keyword
    arguments of the calls of the engine's [plot]. *)
Record Plotting (E : Type) : Type := mkPlotting {
  model : Prophet E;
  warnings : list string;
  plot_calls : list pykwargs
}.

Arguments mkPlotting {E}.
Arguments model {E}.
Arguments warnings {E}.
Arguments plot_calls {E}.

Definition plot_signature : signature :=
  [ ("fcst", None);
    ("ax", Some (PVal ANone));
    ("uncertainty", Some (PVal (ABool true)));
    ("plot_cap", Some (PVal (ABool true)));
    ("xlabel", Some (PVal (AStr "ds")));
    ("ylabel", Some (PVal (AStr "y")));
    ("figsize", Some (PTuple [AInt 10; AInt 6]));
    ("include_legend", Some (PVal (ABool false))) ].

Definition plot_components_signature : signature :=
  [ ("fcst", None);
    ("uncertainty", Some (PVal (ABool true)));
    ("plot_cap", Some (PVal (ABool true)));
    ("weekly_start", Some (PVal (AInt 0)));
    ("yearly_start", Some (PVal (AInt 0)));
    ("figsize", Some (PVal ANone)) ].

Definition plot_msg : string :=
  "The attributes `uncertainty`, `plot_cap` and `include_legend` are not supported by NeuralProphet".

Section Plots.

Context {E : Type} `{NeuralProphet E} `{NeuralProphetPlot E}.

(** The body of [Prophet.plot] (lines 447-448), the arguments bound: it
    warns, calls the engine's [plot] and returns nothing. *)
Definition plot_body (args : pykwargs) (st : Plotting E)
  : (plot_error + pyobj) * Plotting E :=
  let forwarded :=
    [ ("fcst", arg "fcst" args); ("ax", arg "ax" args);
      ("xlabel", arg "xlabel" args); ("ylabel", arg "ylabel" args);
      ("figsize", arg "figsize" args) ] in
  let '(r, e') := np_plot forwarded (engine (model st)) in
  let m := model st in
  let st' := mkPlotting
               (mkProphet e' (events_df m) (history m) (attrs m) (log m)
                          (calls m))
               (warnings st ++ [plot_msg])
               (plot_calls st ++ [forwarded]) in
  match r with
  | inl e => (inl (Raised e), st')
  | inr _ => (inr (PVal ANone), st')
  end.

(** [m.plot(...)] on a Prophet object. *)
Definition plot (positional : list pyobj) (kw : pykwargs) (st : Plotting E)
  : (plot_error + pyobj) * Plotting E :=
  match bind_arguments plot_signature positional kw with
  | inl t => (inl (Call_error t), st)
  | inr args => plot_body args st
  end.

(** [m.plot_components(...)] on a Prophet object: the body is empty
    (lines 450-474). *)
Definition plot_components (positional : list pyobj) (kw : pykwargs)
    (st : Plotting E) : (plot_error + pyobj) * Plotting E :=
  match bind_arguments plot_components_signature positional kw with
  | inl t => (inl (Call_error t), st)
  | inr _ => (inr (PVal ANone), st)
  end.

(** [plot_plotly(m, forecast, **kwargs)] for a Prophet object [m]. *)
Definition plot_plotly (forecast : pyobj) (kw : pykwargs) (st : Plotting E)
  : (plot_error + pyobj) * Plotting E :=
  match call_keywords [("plotting_backend", PVal (AStr "plotly"))] kw with
  | inl t => (inl (Call_error t), st)
  | inr kws => plot [forecast] kws st
  end.

(** [plot_components_plotly(m, forecast, **kwargs)] for a Prophet
    object [m]. *)
Definition plot_components_plotly (forecast : pyobj) (kw : pykwargs)
    (st : Plotting E) : (plot_error + pyobj) * Plotting E :=
  match call_keywords [("plotting_backend", PVal (AStr "plotly"))] kw with
  | inl t => (inl (Call_error t), st)
  | inr kws => plot_components [forecast] kws st
  end.

End Plots.

(** An engine that plots: it answers with a figure. *)
Definition plotting_engine : NeuralProphetPlot SpecEngine.State :=
  {| np_plot := fun _ st => (Ok (PRef "figure"), st) |}.

(** An engine whose forecaster cannot fit. *)
Definition unfit_engine : NeuralProphet SpecEngine.State :=
  SpecEngine.spec_engine (fun _ _ => Err (SpecError UnsupportedFeatureError))
                         (fun _ _ => Ok []).

(** A newly made model, nothing plotted yet. *)
Definition new_plotting : Plotting SpecEngine.State :=
  mkPlotting new_model [] [].

(** A model on the engine that cannot fit. *)
Definition unfit_model : Prophet SpecEngine.State :=
  snd (@construct _ unfit_engine default_args).

(** An engine whose constructor refuses every configuration. *)
Definition refusing_engine : NeuralProphet SpecEngine.State :=
  {| np_new := SpecEngine.mkState [] false;
     np_init := fun _ st => (Err (SpecError ConfigurationError), st);
     np_add_events := SpecEngine.register;
     np_create_df_with_events :=
       fun df ev st => (SpecEngine.attach df (SpecEngine.vocabulary st) ev, st);
     np_fit := SpecEngine.fit_engine (fun _ _ => Ok None);
     np_predict := SpecEngine.predict_engine (fun _ _ => Ok []);
     np_make_future_dataframe := SpecEngine.horizon |}.

(** A model with the New Year holiday. *)
Definition new_year_model : Prophet SpecEngine.State :=
  snd (@construct _ engine0 (with_holidays new_year)).


(** An engine's table without event columns. *)
Definition plain_table : DataFrame :=
  [ ("ds", [AInt 19002; AInt 19003]); ("yhat1", [AInt 42; AInt 43]) ].

(** * Properties *)

(** ** Keyword arguments and frames *)

Lemma existsb_eqb_In (k : string) (l : list string) :
  existsb (String.eqb k) l = true <-> In k l.
Proof.
  rewrite existsb_exists. split.
  - intros [x [Hin Heq]]. apply String.eqb_eq in Heq. now subst.
  - intros Hin. exists k. split; [assumption | apply String.eqb_refl].
Qed.

Lemma no_clash_ok (explicit : list string) (extra : kwargs) :
  (forall k, In k (keys extra) -> ~ In k explicit) ->
  no_clash explicit extra = Ok tt.
Proof.
  unfold no_clash. intros Hfree.
  destruct (find _ extra) as [[k v]|] eqn:Hfind; [|reflexivity].
  apply find_some in Hfind. destruct Hfind as [Hin Hex]. simpl in Hex.
  apply existsb_eqb_In in Hex.
  exfalso. apply (Hfree k); [|assumption].
  unfold keys. change k with (fst (k, v)). now apply in_map.
Qed.

Lemma no_clash_weaken (explicit explicit' : list string) (extra : kwargs) :
  (forall k, In k explicit -> In k explicit') ->
  (forall k, In k (keys extra) -> ~ In k explicit') ->
  no_clash explicit extra = Ok tt.
Proof.
  intros Hsub Hfree. apply no_clash_ok. intros k Hk Hin.
  apply (Hfree k Hk). now apply Hsub.
Qed.

Lemma getitem_In (df : DataFrame) (c : string) :
  In c (columns df) -> exists s, getitem df c = Ok s.
Proof.
  induction df as [|[c' s'] rest IH]; simpl; [tauto|].
  intros [Heq | Hin].
  - subst. rewrite String.eqb_refl. now exists s'.
  - destruct (String.eqb c c'); [now exists s' | now apply IH].
Qed.

Lemma getitem_not_In (df : DataFrame) (c : string) :
  ~ In c (columns df) -> getitem df c = Err (KeyError c).
Proof.
  induction df as [|[c' s'] rest IH]; simpl; [reflexivity|].
  intros Hnot. destruct (String.eqb c c') eqn:Heq.
  - apply String.eqb_eq in Heq. subst. tauto.
  - apply IH. tauto.
Qed.

Lemma getitem_app_l (A B : DataFrame) (c : string) :
  In c (columns A) -> getitem (A ++ B) c = getitem A c.
Proof.
  induction A as [|[c' s'] rest IH]; simpl; [tauto|].
  intros [Heq | Hin].
  - subst. now rewrite String.eqb_refl.
  - destruct (String.eqb c c'); [reflexivity | now apply IH].
Qed.

Lemma getitem_app_r (A B : DataFrame) (c : string) :
  ~ In c (columns A) -> getitem (A ++ B) c = getitem B c.
Proof.
  induction A as [|[c' s'] rest IH]; simpl; [reflexivity|].
  intros Hnot. destruct (String.eqb c c') eqn:Heq.
  - apply String.eqb_eq in Heq. subst. tauto.
  - apply IH. tauto.
Qed.

Lemma setitem_app_r (A B : DataFrame) (c : string) (s : Series) :
  ~ In c (columns A) -> setitem (A ++ B) c s = A ++ setitem B c s.
Proof.
  induction A as [|[c' s'] rest IH]; simpl; [reflexivity|].
  intros Hnot. destruct (String.eqb c c') eqn:Heq.
  - apply String.eqb_eq in Heq. subst. tauto.
  - f_equal. apply IH. tauto.
Qed.

Lemma getitem_setitem_same (df : DataFrame) (c : string) (s : Series) :
  getitem (setitem df c s) c = Ok s.
Proof.
  induction df as [|[c' s'] rest IH]; simpl.
  - now rewrite String.eqb_refl.
  - destruct (String.eqb c c') eqn:Heq; simpl; rewrite Heq; [reflexivity | exact IH].
Qed.

Lemma getitem_setitem_other (df : DataFrame) (c c' : string) (s : Series) :
  c' <> c -> getitem (setitem df c s) c' = getitem df c'.
Proof.
  intros Hne. induction df as [|[c0 s0] rest IH]; simpl.
  - destruct (String.eqb c' c) eqn:Heq; [|reflexivity].
    apply String.eqb_eq in Heq. contradiction.
  - destruct (String.eqb c c0) eqn:Heq; simpl.
    + apply String.eqb_eq in Heq. subst c0.
      destruct (String.eqb c' c) eqn:Heq'; [|reflexivity].
      apply String.eqb_eq in Heq'. contradiction.
    + now rewrite IH.
Qed.

Lemma columns_setitem_In (df : DataFrame) (c c' : string) (s : Series) :
  In c' (columns (setitem df c s)) <-> c' = c \/ In c' (columns df).
Proof.
  induction df as [|[c0 s0] rest IH]; simpl.
  - intuition.
  - destruct (String.eqb c c0) eqn:Heq; simpl.
    + apply String.eqb_eq in Heq. subst c0. intuition.
    + rewrite IH. intuition.
Qed.

(** ** fit *)

Section FitProperties.

Context {E : Type} {eng : NeuralProphet E}.

(** C3. A fit input with a column named "cap" makes [fit] raise
    [NotImplementedError] ("Saturating forecasts using cap is not
    supported in NeuralProphet."), the wrapper's unsupported-feature
    error.  It is raised first: the object is left exactly as it was, no
    call reaches the engine, nothing is logged and no history is
    stored. *)
Theorem fit_cap_unsupported (df : DataFrame) (kw : kwargs) (s : Prophet E) :
  In "cap" (columns df) ->
  fit df kw s = (Err (NotImplementedError cap_msg), s).
Proof.
  intros Hcap. unfold fit, bind.
  apply existsb_eqb_In in Hcap. rewrite Hcap. reflexivity.
Qed.

End FitProperties.

Lemma fit_cap_unsupported_witness :
  In "cap" (columns [("ds", [AInt 19000]); ("y", [AInt 7]); ("cap", [AInt 10])])
  /\ @fit _ engine0
          [("ds", [AInt 19000]); ("y", [AInt 7]); ("cap", [AInt 10])] []
          new_model
     = (Err (NotImplementedError cap_msg), new_model).
Proof.
  split.
  - simpl. tauto.
  - apply (@fit_cap_unsupported _ engine0). simpl. tauto.
Defined.

(** ** make_future_dataframe *)

Section FutureProperties.

Context {E : Type} {eng : NeuralProphet E}.

Lemma make_future_dataframe_forwards
    (periods : Z) (freq : string) (inc : bool) (kw : kwargs) (s : Prophet E) :
  passes_through kw ->
  make_future_dataframe periods freq inc kw s
  = super (Call_make_future_dataframe (history s) (events_df s)
             (convert_periods freq periods) inc kw)
          (np_make_future_dataframe (history s) (events_df s)
             (convert_periods freq periods) inc kw) s.
Proof.
  intros Hkw. unfold make_future_dataframe, bind, get, lift. cbn.
  destruct (events_df s) as [ev|].
  - rewrite (no_clash_ok _ kw Hkw). reflexivity.
  - rewrite (no_clash_weaken
               ["df"; "periods"; "n_historic_predictions"]
               ["df"; "events_df"; "periods"; "n_historic_predictions"] kw);
      [reflexivity | | exact Hkw].
    simpl. intuition.
Qed.

Lemma super_calls {A} (c : Call) (m : E -> res A * E) (s : Prophet E) :
  calls (snd (super c m s)) = calls s ++ [c]
  /\ (fst (super c m s), engine (snd (super c m s))) = m (engine s)
  /\ events_df (snd (super c m s)) = events_df s
  /\ history (snd (super c m s)) = history s
  /\ log (snd (super c m s)) = log s.
Proof.
  unfold super. destruct (m (engine s)) as [r e']. simpl. auto.
Qed.

(** C2. With the frequency token "M" the number of periods is
    multiplied by 30 before the engine is called; with every other token
    it is passed on as it is.  The engine is called once, with the stored
    history, and its answer is the wrapper's.  In the specification's
    engine [n] periods are [n] new rows, so one "M" period is 30 future
    rows whatever the month. *)
Theorem month_is_30_periods
    (periods : Z) (freq : string) (inc : bool) (kw : kwargs) (s : Prophet E) :
  passes_through kw ->
  let forwarded := if String.eqb freq "M" then periods * 30 else periods in
  let out := make_future_dataframe periods freq inc kw s in
  calls (snd out)
  = calls s ++ [Call_make_future_dataframe (history s) (events_df s)
                  forwarded inc kw]
  /\ (fst out, engine (snd out))
     = np_make_future_dataframe (history s) (events_df s) forwarded inc kw
                                (engine s)
  /\ (freq = "M" -> forwarded = periods * 30)
  /\ (freq <> "M" -> forwarded = periods)
  /\ (forall hist,
         List.length (SpecEngine.extend hist forwarded false)
         = Z.to_nat forwarded).
Proof.
  intros Hkw forwarded out. subst out.
  rewrite (make_future_dataframe_forwards _ _ _ _ _ Hkw).
  fold forwarded.
  destruct (super_calls
              (Call_make_future_dataframe (history s) (events_df s)
                 (convert_periods freq periods) inc kw)
              (np_make_future_dataframe (history s) (events_df s)
                 (convert_periods freq periods) inc kw) s)
    as (Hcalls & Hres & _).
  unfold convert_periods in Hcalls, Hres. fold forwarded in Hcalls, Hres.
  repeat split; try assumption.
  - intros ->. reflexivity.
  - intros Hne. subst forwarded.
    destruct (String.eqb freq "M") eqn:Heq; [|reflexivity].
    apply String.eqb_eq in Heq. contradiction.
  - intros hist. unfold SpecEngine.extend. simpl.
    now rewrite length_map, length_seq.
Qed.

End FutureProperties.

Lemma passes_through_nil : passes_through [].
Proof. intros k []. Qed.

Lemma month_is_30_periods_witness :
  passes_through []
  /\ calls (snd (@make_future_dataframe _ engine0 1 "M" false [] fitted_model))
     = calls fitted_model
       ++ [Call_make_future_dataframe (Some two_day_history) None 30 false []]
  /\ List.length (SpecEngine.extend [19000; 19001] 30 false) = 30%nat.
Proof.
  destruct (@month_is_30_periods _ engine0 1 "M" false [] fitted_model
              passes_through_nil) as (Hcalls & _ & _ & _ & Hrows).
  split; [exact passes_through_nil|].
  split; [exact Hcalls | exact (Hrows [19000; 19001])].
Defined.

(** One "M" period on a two-day history: 30 future rows, the days after
    the last day of the history. *)
Example one_month_is_30_rows :
  fst (@make_future_dataframe _ engine0 1 "M" false [] fitted_model)
  = Ok [("ds", map (fun k => AInt (19002 + Z.of_nat k)) (seq 0 30))].
Proof. vm_compute. reflexivity. Qed.

(** C4 as stated fails: an unsupported frequency token raises nothing.
    With the token "bogus" and three periods the wrapper returns the
    three days after the history. *)
Lemma unsupported_frequency_is_accepted :
  fst (@make_future_dataframe _ engine0 3 "bogus" false [] fitted_model)
  = Ok [("ds", [AInt 19002; AInt 19003; AInt 19004])].
Proof. vm_compute. reflexivity. Qed.

(** C4, amended.  The wrapper checks neither argument.  The frequency
    token is compared with "M" and then dropped, it is never passed to the
    engine: every token other than "M" behaves exactly as "D", for every
    engine.  The number of periods (times 30 for "M") is forwarded, and a
    non-positive number fails with the [InvalidArgumentError] raised by
    the specification's engine. *)
Theorem horizon_arguments_unchecked :
  (forall (E : Type) (eng : NeuralProphet E) periods freq inc kw
          (s : Prophet E),
      freq <> "M" ->
      make_future_dataframe periods freq inc kw s
      = make_future_dataframe periods "D" inc kw s)
  /\ (forall fit_model forecast periods freq inc kw
             (s : Prophet SpecEngine.State),
         periods <= 0 ->
         passes_through kw ->
         fst (@make_future_dataframe _
                (SpecEngine.spec_engine fit_model forecast)
                periods freq inc kw s)
         = Err (SpecError InvalidArgumentError)).
Proof.
  split.
  - intros E eng periods freq inc kw s Hne.
    unfold make_future_dataframe, convert_periods.
    destruct (String.eqb freq "M") eqn:Heq; [|reflexivity].
    apply String.eqb_eq in Heq. contradiction.
  - intros fm fc periods freq inc kw s Hle Hkw.
    rewrite (make_future_dataframe_forwards _ _ _ _ _ Hkw).
    unfold super. simpl. unfold SpecEngine.horizon.
    assert (Hc : (convert_periods freq periods <=? 0) = true).
    { apply Z.leb_le. unfold convert_periods.
      destruct (String.eqb freq "M"); lia. }
    rewrite Hc. reflexivity.
Qed.

Lemma horizon_arguments_unchecked_witness :
  ("W" <> "M"
   /\ @make_future_dataframe _ engine0 3 "W" true [] fitted_model
      = @make_future_dataframe _ engine0 3 "D" true [] fitted_model)
  /\ (0 <= 0
      /\ passes_through []
      /\ fst (@make_future_dataframe _ engine0 0 "D" true [] fitted_model)
         = Err (SpecError InvalidArgumentError)).
Proof.
  split.
  - split; [discriminate|].
    apply (proj1 horizon_arguments_unchecked). discriminate.
  - split; [lia|]. split; [exact passes_through_nil|].
    apply (proj2 horizon_arguments_unchecked);
      [lia | exact passes_through_nil].
Defined.

(** ** predict and make_future_dataframe without a history *)

(** C5 as stated fails: [predict()] on a model that was never fitted
    raises [AttributeError] (Python's [None] has no [copy]), not a
    [PrerequisiteError]. *)
Lemma predict_before_fit_is_AttributeError :
  fst (@predict _ engine0 None [] new_model)
  = Err (AttributeError "NoneType" "copy")
  /\ fst (@predict _ engine0 None [] new_model)
     <> Err (SpecError PrerequisiteError).
Proof. split; [vm_compute; reflexivity | vm_compute; discriminate]. Qed.

(** C5, amended.  The wrapper never looks whether a history is present.
    - [predict()] with the history still [None] fails with the
      [AttributeError] of [None.copy()], before the engine is called and
      leaving the object as it was;
    - [predict()] with a stored history, empty or not, hands a copy of it
      to the engine and post-processes the engine's answer;
    - [make_future_dataframe] hands the stored history, absent or empty,
      to the engine; with the specification's engine and a positive number
      of periods it then fails with the engine's [PrerequisiteError]. *)
Theorem no_history_is_not_checked :
  (forall (E : Type) (eng : NeuralProphet E) kw (s : Prophet E),
      history s = None ->
      predict None kw s = (Err (AttributeError "NoneType" "copy"), s))
  /\ (forall (E : Type) (eng : NeuralProphet E) h kw (s : Prophet E),
         history s = Some h ->
         no_clash ["df"] kw = Ok tt ->
         calls (snd (predict None kw s)) = calls s ++ [Call_predict h kw]
         /\ fst (predict None kw s)
            = res_bind (fst (np_predict h kw (engine s)))
                       (fun T => copy_event_columns (columns T) T))
  /\ (forall fit_model forecast periods freq inc kw
             (s : Prophet SpecEngine.State),
         0 < periods ->
         passes_through kw ->
         history s = None
         \/ (exists h, history s = Some h /\ SpecEngine.frame_empty h = true) ->
         let out := @make_future_dataframe _
                      (SpecEngine.spec_engine fit_model forecast)
                      periods freq inc kw s in
         fst out = Err (SpecError PrerequisiteError)
         /\ calls (snd out)
            = calls s ++ [Call_make_future_dataframe (history s) (events_df s)
                            (convert_periods freq periods) inc kw]).
Proof.
  split; [|split].
  - intros E eng kw s Hnone. unfold predict, bind, get. cbn.
    rewrite Hnone. reflexivity.
  - intros E eng h kw s Hsome Hkw. unfold predict, bind, get, lift. cbn.
    rewrite Hsome. cbn. rewrite Hkw. unfold super, copy.
    destruct (np_predict h kw (engine s)) as [[e|T] e']; cbn; auto.
  - intros fm fc periods freq inc kw s Hpos Hkw Hhist out. subst out.
    rewrite (make_future_dataframe_forwards _ _ _ _ _ Hkw).
    unfold super. cbn. unfold SpecEngine.horizon.
    assert (Hc : (convert_periods freq periods <=? 0) = false).
    { apply Z.leb_gt. unfold convert_periods.
      destruct (String.eqb freq "M"); lia. }
    rewrite Hc.
    destruct Hhist as [Hnone | [h [Hsome Hempty]]].
    + rewrite Hnone. cbn. auto.
    + rewrite Hsome, Hempty. cbn. auto.
Qed.

Lemma no_history_is_not_checked_witness :
  (history new_model = None
   /\ @predict _ engine0 None [] new_model
      = (Err (AttributeError "NoneType" "copy"), new_model))
  /\ (history empty_history_model = Some [("ds", []); ("y", [])]
      /\ no_clash ["df"] [] = Ok tt
      /\ calls (snd (@predict _ engine0 None [] empty_history_model))
         = calls empty_history_model
           ++ [Call_predict [("ds", []); ("y", [])] []])
  /\ (0 < 5
      /\ passes_through []
      /\ fst (@make_future_dataframe _ engine0 5 "D" true []
                empty_history_model)
         = Err (SpecError PrerequisiteError)).
Proof.
  split; [|split].
  - split; [reflexivity|].
    apply (proj1 no_history_is_not_checked). reflexivity.
  - split; [reflexivity|]. split; [reflexivity|].
    apply (proj1 (proj2 no_history_is_not_checked)); reflexivity.
  - split; [lia|]. split; [exact passes_through_nil|].
    apply (proj2 (proj2 no_history_is_not_checked)
             (fun _ _ => Ok None) (fun _ _ => Ok []) 5 "D" true []
             empty_history_model);
      [lia | exact passes_through_nil | right].
    exists [("ds", []); ("y", [])]. split; reflexivity.
Defined.

(** ** The constructor *)

Section ConstructorProperties.

Context {E : Type} {eng : NeuralProphet E}.

Lemma with_log_same (s : Prophet E) : with_log (log s) s = s.
Proof. now destruct s. Qed.

Lemma check_unsupported_run (a : InitArgs) (s : Prophet E) :
  check_unsupported a s = (Ok tt, with_log (log s ++ advisories a) s).
Proof.
  unfold check_unsupported, advisories, when, bind, ret, log_info, with_log.
  destruct s as [e ev h at_ l cs].
  destruct (truthy (seasonality_prior_scale a)
            || truthy (holidays_prior_scale a)
            || truthy (changepoint_prior_scale a));
    destruct (truthy (mcmc_samples a) || truthy (uncertainty_samples a));
    destruct (truthy (stan_backend a));
    cbn; rewrite <- ?app_assoc, ?app_nil_r; reflexivity.
Qed.

Lemma log_blind_bind {A B} (m : M E A) (k : A -> M E B) :
  log_blind m -> (forall a, log_blind (k a)) -> log_blind (bind m k).
Proof.
  intros Hm Hk l s. unfold bind. rewrite Hm.
  destruct (m s) as [[e|a] s1]; cbn; [reflexivity|]. apply Hk.
Qed.

Lemma log_blind_lift {A} (r : res A) : log_blind (@lift E A r).
Proof. intros l s. reflexivity. Qed.

Lemma log_blind_ret {A} (a : A) : log_blind (@ret E A a).
Proof. intros l s. reflexivity. Qed.

Lemma log_blind_super {A} (c : Call) (m : E -> res A * E) :
  log_blind (super c m).
Proof.
  intros l s. unfold super. cbn. now destruct (m (engine s)).
Qed.

Lemma log_blind_set_events_df (df : DataFrame) :
  log_blind (@set_events_df E df).
Proof. intros l s. reflexivity. Qed.

Lemma log_blind_set_history (h : option DataFrame) :
  log_blind (@set_history E h).
Proof. intros l s. reflexivity. Qed.

Lemma log_blind_set_attr (k : string) (v : value) :
  log_blind (@set_attr E k v).
Proof. intros l s. reflexivity. Qed.

Lemma log_blind_handle_holidays (h : DataFrame) :
  log_blind (handle_holidays h).
Proof.
  unfold handle_holidays.
  repeat first
    [ apply log_blind_bind; [|intros ?]
    | apply log_blind_lift | apply log_blind_super
    | apply log_blind_set_events_df ].
Qed.

(** What the constructor does after its checks of unsupported
    parameters. *)
Lemma init_after_checks (a : InitArgs) :
  exists tail : M E unit,
    log_blind tail
    /\ (forall s, __init__ a s = bind (check_unsupported a) (fun _ => tail) s)
    /\ (forall s, __init__ (without_legacy a) s
                  = bind (check_unsupported (without_legacy a))
                         (fun _ => tail) s).
Proof.
  exists (init_engine a ;;;
          match holidays a with
          | Some h => handle_holidays h
          | None => ret tt
          end ;;; overwrite_properties).
  split; [|split].
  - unfold init_engine, overwrite_properties.
    repeat first
      [ apply log_blind_bind; [|intros ?]
      | apply log_blind_lift | apply log_blind_super
      | apply log_blind_set_attr | apply log_blind_set_history
      | apply log_blind_ret ].
    destruct (holidays a);
      [apply log_blind_handle_holidays | apply log_blind_ret].
  - intros s. unfold __init__, bind.
    destruct (check_unsupported a s) as [[e|[]] s1]; reflexivity.
  - intros s. unfold __init__, bind.
    destruct (check_unsupported (without_legacy a) s) as [[e|[]] s1];
      reflexivity.
Qed.

End ConstructorProperties.

Section Advisories.

Context {E : Type} {eng : NeuralProphet E}.

Lemma construct_after_checks (a : InitArgs) :
  exists (r : res unit) (s : Prophet E),
    construct a = (r, with_log (advisories a) s)
    /\ construct (without_legacy a) = (r, with_log [] s).
Proof.
  destruct (init_after_checks a) as (tail & Hblind & Hrun & Hrun0).
  exists (fst (tail blank)), (snd (tail blank)).
  unfold construct. rewrite Hrun, Hrun0. unfold bind.
  rewrite !check_unsupported_run. split; apply Hblind.
Qed.

(** C7, amended.  Each of the six parameters is tested for its truth
    value: a value that Python takes for true (not [None], [False], zero
    or an empty string or list) produces the notice of its group in the
    log.  Whatever the six values are, the construction has the outcome
    it has without them, makes the same calls with the same arguments to
    the engine and leaves the same object; only the log differs. *)
Theorem legacy_parameters_are_advisory (a : InitArgs) :
  let out := construct a in
  let out0 := construct (without_legacy a) in
  (truthy (seasonality_prior_scale a)
   || truthy (holidays_prior_scale a)
   || truthy (changepoint_prior_scale a) = true ->
   In prior_scale_msg (log (snd out)))
  /\ (truthy (mcmc_samples a) || truthy (uncertainty_samples a) = true ->
      In samples_msg (log (snd out)))
  /\ (truthy (stan_backend a) = true ->
      In stan_backend_msg (log (snd out)))
  /\ fst out = fst out0
  /\ calls (snd out) = calls (snd out0)
  /\ with_log [] (snd out) = snd out0.
Proof.
  intros out out0. subst out out0.
  destruct (construct_after_checks a) as (r & s & -> & ->). cbn.
  unfold advisories.
  repeat split.
  - intros ->. apply in_or_app. left. now left.
  - intros ->. apply in_or_app. right. apply in_or_app. left. now left.
  - intros ->. apply in_or_app. right. apply in_or_app. right. now left.
Qed.

End Advisories.

(** C7 as stated fails: [mcmc_samples=0] is supplied, and no notice is
    produced. *)
Lemma mcmc_samples_zero_gives_no_notice :
  @construct _ engine0 (with_mcmc_samples (AInt 0))
  = @construct _ engine0 default_args
  /\ log (snd (@construct _ engine0 (with_mcmc_samples (AInt 0)))) = [].
Proof. split; vm_compute; reflexivity. Qed.

Lemma legacy_parameters_are_advisory_witness :
  (truthy (mcmc_samples (with_mcmc_samples (AInt 100)))
   || truthy (uncertainty_samples (with_mcmc_samples (AInt 100))) = true)
  /\ In samples_msg
        (log (snd (@construct _ engine0 (with_mcmc_samples (AInt 100)))))
  /\ fst (@construct _ engine0 (with_mcmc_samples (AInt 100)))
     = fst (@construct _ engine0 (without_legacy (with_mcmc_samples (AInt 100)))).
Proof.
  destruct (@legacy_parameters_are_advisory _ engine0
              (with_mcmc_samples (AInt 100)))
    as (_ & Hsamples & _ & Hsame & _).
  split; [reflexivity|].
  split; [apply Hsamples; reflexivity | exact Hsame].
Defined.

(** ** Holidays as events *)








Section HolidayProperties.

Context {E : Type} {eng : NeuralProphet E}.

(** [handle_holidays] either raises before it reaches the engine, or
    calls [add_events] once and, if that succeeds, stores the events
    table. *)
Lemma handle_holidays_run (h : DataFrame) (s : Prophet E) :
  (exists e, handle_holidays h s = (Err e, s)
             /\ (getitem h "holiday" = Err e
                 \/ getitem h "lower_window" = Err e
                 \/ (exists lowers, getitem h "lower_window" = Ok lowers
                                    /\ Series_max lowers = Err e)
                 \/ getitem h "upper_window" = Err e
                 \/ (exists uppers, getitem h "upper_window" = Ok uppers
                                    /\ Series_max uppers = Err e)))
  \/ (exists names lowers uppers lo hi,
         getitem h "holiday" = Ok names
         /\ getitem h "lower_window" = Ok lowers
         /\ Series_max lowers = Ok lo
         /\ getitem h "upper_window" = Ok uppers
         /\ Series_max uppers = Ok hi
         /\ handle_holidays h s
            = bind (super (Call_add_events (unique names) lo hi)
                          (np_add_events (unique names) lo hi))
                   (fun _ => set_events_df (events_table h)) s).
Proof.
  unfold handle_holidays, bind, lift.
  destruct (getitem h "holiday") as [e|names] eqn:Hn.
  { left. exists e. split; [reflexivity | now left]. }
  destruct (getitem h "lower_window") as [e|lowers] eqn:Hl.
  { left. exists e. split; [reflexivity | right; now left]. }
  destruct (Series_max lowers) as [e|lo] eqn:Hlo.
  { left. exists e. split; [reflexivity|]. right. right. left. eauto. }
  destruct (getitem h "upper_window") as [e|uppers] eqn:Hu.
  { left. exists e. split; [reflexivity|]. right. right. right. now left. }
  destruct (Series_max uppers) as [e|hi] eqn:Hhi.
  { left. exists e. split; [reflexivity|]. right. right. right. right. eauto. }
  right. exists names, lowers, uppers, lo, hi.
  repeat (split; [first [reflexivity | assumption]|]). reflexivity.
Qed.

Lemma handle_holidays_ok (h : DataFrame) (s s' : Prophet E) :
  handle_holidays h s = (Ok tt, s') ->
  exists names lowers uppers lo hi,
    getitem h "holiday" = Ok names
    /\ getitem h "lower_window" = Ok lowers
    /\ Series_max lowers = Ok lo
    /\ getitem h "upper_window" = Ok uppers
    /\ Series_max uppers = Ok hi
    /\ fst (np_add_events (unique names) lo hi (engine s)) = Ok tt
    /\ s' = mkProphet (snd (np_add_events (unique names) lo hi (engine s)))
                      (Some (events_table h)) (history s) (attrs s) (log s)
                      (calls s ++ [Call_add_events (unique names) lo hi]).
Proof.
  intros Hrun.
  destruct (handle_holidays_run h s)
    as [(e & He & _) | (names & lowers & uppers & lo & hi
                        & Hn & Hl & Hlo & Hu & Hhi & Heq)].
  - rewrite He in Hrun. discriminate.
  - exists names, lowers, uppers, lo, hi. repeat (split; [assumption|]).
    rewrite Heq in Hrun. unfold bind, super, set_events_df in Hrun.
    destruct (np_add_events (unique names) lo hi (engine s)) as [[e|[]] e1];
      cbn in *; [discriminate|].
    injection Hrun as <-. split; reflexivity.
Qed.



Lemma construct_ok (a : InitArgs) (s : Prophet E) :
  construct a = (Ok tt, s) ->
  history s = None
  /\ match holidays a with
     | None =>
         calls s = [Call_init (engine_keywords a ++ extra_kwargs a)]
         /\ events_df s = None
     | Some h =>
         exists names lowers uppers lo hi,
           getitem h "holiday" = Ok names
           /\ getitem h "lower_window" = Ok lowers
           /\ Series_max lowers = Ok lo
           /\ getitem h "upper_window" = Ok uppers
           /\ Series_max uppers = Ok hi
           /\ calls s = [Call_init (engine_keywords a ++ extra_kwargs a);
                         Call_add_events (unique names) lo hi]
           /\ events_df s = Some (events_table h)
     end.
Proof.
  unfold construct, __init__, bind.
  rewrite check_unsupported_run. unfold init_engine, bind, lift.
  destruct (no_clash (keys (engine_keywords a)) (extra_kwargs a))
    as [e|[]]; [discriminate|].
  unfold super. cbn.
  destruct (np_init (engine_keywords a ++ extra_kwargs a) np_new)
    as [[e|[]] e1]; cbn; [discriminate|].
  destruct (holidays a) as [h|]; cbn.
  - match goal with |- context [handle_holidays h ?s0] =>
      destruct (handle_holidays h s0) as [[e|[]] s2] eqn:Hh
    end; cbn; [discriminate|].
    apply handle_holidays_ok in Hh.
    destruct Hh as (names & lowers & uppers & lo & hi
                    & Hn & Hl & Hlo & Hu & Hhi & _ & ->).
    intros Heq. injection Heq as <-. cbn. split; [reflexivity|].
    exists names, lowers, uppers, lo, hi. repeat (split; [assumption|]).
    split; reflexivity.
  - intros Heq. injection Heq as <-. cbn. auto.
Qed.

End HolidayProperties.

Section Forwarding.

Context {E : Type} {eng : NeuralProphet E}.


End Forwarding.



Section Windows.

Context {E : Type} {eng : NeuralProphet E}.


End Windows.


(** ** The columns of the holidays table *)

Lemma getitem_drop (labels : list string) (df : DataFrame) (c : string) :
  ~ In c labels -> getitem (drop labels df) c = getitem df c.
Proof.
  intros Hnot. induction df as [|[c' s'] rest IH]; simpl; [reflexivity|].
  destruct (existsb (String.eqb c') labels) eqn:Hex; simpl.
  - destruct (String.eqb c c') eqn:Heq; [|exact IH].
    apply String.eqb_eq in Heq. subst c'.
    apply existsb_eqb_In in Hex. contradiction.
  - now rewrite IH.
Qed.

(** C6 as stated fails.  A holidays table without the date column is
    accepted by the constructor; a holidays table without the window
    columns is rejected with a [KeyError]. *)
Lemma missing_dates_accepted_missing_windows_rejected :
  fst (@construct _ engine0 (with_holidays no_dates)) = Ok tt
  /\ fst (@construct _ engine0 (with_holidays no_windows))
     = Err (KeyError "lower_window").
Proof. split; vm_compute; reflexivity. Qed.

Section HolidayColumns.

Context {E : Type} {eng : NeuralProphet E}.

Lemma handle_holidays_without_dates (h : DataFrame) (s : Prophet E) :
  fst (handle_holidays (drop ["ds"] h) s) = fst (handle_holidays h s)
  /\ forget_events (snd (handle_holidays (drop ["ds"] h) s))
     = forget_events (snd (handle_holidays h s)).
Proof.
  unfold handle_holidays, bind, lift.
  rewrite !getitem_drop by (simpl; intuition discriminate).
  destruct (getitem h "holiday") as [e|names]; [auto|].
  destruct (getitem h "lower_window") as [e|lowers]; [auto|].
  destruct (Series_max lowers) as [e|lo]; [auto|].
  destruct (getitem h "upper_window") as [e|uppers]; [auto|].
  destruct (Series_max uppers) as [e|hi]; [auto|].
  unfold super, set_events_df.
  destruct (np_add_events (unique names) lo hi (engine s)) as [[e|[]] e1];
    auto.
Qed.

Lemma overwrite_properties_forget (s s' : Prophet E) :
  forget_events s' = forget_events s ->
  fst (overwrite_properties s') = fst (overwrite_properties s)
  /\ forget_events (snd (overwrite_properties s'))
     = forget_events (snd (overwrite_properties s)).
Proof.
  unfold forget_events. intros Heq. injection Heq as He Hh Ha Hl Hc.
  unfold overwrite_properties, bind, set_attr, set_history. cbn.
  rewrite He, Ha, Hl, Hc. auto.
Qed.

(** C6, amended.  A holidays table without the name column "holiday"
    makes the construction fail: the lookup of the column raises
    [KeyError], and no event is registered.  The date column "ds" is not
    looked at by the constructor: a table without it is handled as the
    same table with it, with the same outcome, the same calls to the
    engine and the same engine state. *)
Theorem holidays_columns_at_construction (a : InitArgs) (h : DataFrame) :
  holidays a = Some h ->
  (~ In "holiday" (columns h) ->
   (forall s : Prophet E, handle_holidays h s = (Err (KeyError "holiday"), s))
   /\ (exists e, fst (construct a) = Err e)
   /\ (forall events lo hi,
          ~ In (Call_add_events events lo hi) (calls (snd (construct a)))))
  /\ (let a' := set_holidays (Some (drop ["ds"] h)) a in
      fst (construct a') = fst (construct a)
      /\ calls (snd (construct a')) = calls (snd (construct a))
      /\ engine (snd (construct a')) = engine (snd (construct a))).
Proof.
  intros Hh. split.
  - intros Hmissing.
    assert (Hrun : forall s : Prophet E,
               handle_holidays h s = (Err (KeyError "holiday"), s)).
    { intros s. unfold handle_holidays, bind, lift.
      now rewrite (getitem_not_In h "holiday" Hmissing). }
    split; [exact Hrun|].
    unfold construct, __init__, bind.
    rewrite check_unsupported_run. unfold init_engine, bind, lift.
    destruct (no_clash (keys (engine_keywords a)) (extra_kwargs a))
      as [e|[]]; cbn.
    { split; [eauto | intros ev lo hi []]. }
    unfold super. cbn.
    destruct (np_init (engine_keywords a ++ extra_kwargs a) np_new)
      as [[e|[]] e1]; cbn.
    { split; [eauto|]. intros ev lo hi [Heq | []]. discriminate. }
    rewrite Hh, Hrun. cbn.
    split; [eauto|]. intros ev lo hi [Heq | []]. discriminate.
  - intros a'. subst a'.
    assert (Hgoal :
      fst (construct (set_holidays (Some (drop ["ds"] h)) a))
      = fst (construct a)
      /\ forget_events (snd (construct (set_holidays (Some (drop ["ds"] h)) a)))
         = forget_events (snd (construct a))).
    { unfold construct, __init__, bind.
      rewrite !check_unsupported_run.
      change (advisories (set_holidays (Some (drop ["ds"] h)) a))
        with (advisories a).
      change (init_engine (set_holidays (Some (drop ["ds"] h)) a))
        with (init_engine a).
      change (holidays (set_holidays (Some (drop ["ds"] h)) a))
        with (Some (drop ["ds"] h)).
      rewrite Hh.
      destruct (init_engine a (with_log (log blank ++ advisories a) blank))
        as [[e|[]] s1]; [auto|].
      destruct (handle_holidays_without_dates h s1) as [Hfst Hsnd].
      destruct (handle_holidays (drop ["ds"] h) s1) as [[e'|[]] s2'];
        destruct (handle_holidays h s1) as [[e|[]] s2];
        cbn [fst snd] in Hfst, Hsnd; try discriminate.
      - injection Hfst as ->. auto.
      - now apply overwrite_properties_forget. }
    destruct Hgoal as [Hfst Hforget]. split; [exact Hfst|].
    split.
    + exact (f_equal calls Hforget).
    + exact (f_equal engine Hforget).
Qed.

End HolidayColumns.

Lemma holidays_columns_at_construction_witness :
  holidays (with_holidays no_names) = Some no_names
  /\ ~ In "holiday" (columns no_names)
  /\ (exists e, fst (@construct _ engine0 (with_holidays no_names)) = Err e)
  /\ fst (@construct _ engine0
            (set_holidays (Some (drop ["ds"] no_names))
                          (with_holidays no_names)))
     = fst (@construct _ engine0 (with_holidays no_names)).
Proof.
  assert (Hmissing : ~ In "holiday" (columns no_names))
    by (simpl; intuition discriminate).
  destruct (@holidays_columns_at_construction _ engine0
              (with_holidays no_names) no_names eq_refl)
    as [Hname Hdates].
  split; [reflexivity|]. split; [exact Hmissing|].
  split.
  - exact (proj1 (proj2 (Hname Hmissing))).
  - exact (proj1 Hdates).
Defined.

(** ** predict: the copies of the event columns *)

Lemma replace_from_absent (old new s : string) :
  contains old s = false -> replace_from old new O s = s.
Proof.
  induction s as [|c s' IH]; [reflexivity|].
  intros Hc. simpl in Hc. apply orb_false_iff in Hc. destruct Hc as [Hp Hc].
  cbn [replace_from]. cbn [prefix]. rewrite Hp. now rewrite IH.
Qed.

(** Removing "event_" from a name that carries it as a prefix only strips
    the prefix. *)
Lemma replace_event_prefix (n : string) :
  contains "event_" n = false -> replace "event_" "" ("event_" ++ n) = n.
Proof.
  intros Hc. unfold replace.
  destruct n as [|c n']; [reflexivity|].
  change (replace_from "event_" "" O (String c n') = String c n').
  now apply replace_from_absent.
Qed.

Lemma contains_event_prefix (n : string) :
  contains "event_" ("event_" ++ n) = true.
Proof. cbn. now destruct n. Qed.

Lemma copy_event_columns_appends (T : DataFrame) :
  copies_are_new T ->
  forall cols added,
    (forall c, In c cols -> In c (columns T)) ->
    exists added',
      copy_event_columns cols (T ++ added) = Ok (T ++ added')
      /\ (forall c, In c (columns added) -> In c (columns added'))
      /\ (forall c, In c cols -> contains "event_" c = true ->
                    In (replace "event_" "" c) (columns added'))
      /\ (forall c', In c' (columns added') ->
            (exists c, In c cols /\ contains "event_" c = true
                       /\ replace "event_" "" c = c'
                       /\ getitem added' c' = getitem T c)
            \/ (In c' (columns added)
                /\ getitem added' c' = getitem added c')).
Proof.
  intros Hnew cols. induction cols as [|c rest IH]; intros added Hcols.
  - exists added. cbn. repeat split; auto. intros c [].
  - assert (HcT : In c (columns T)) by (apply Hcols; now left).
    assert (Hrest : forall c0, In c0 rest -> In c0 (columns T))
      by (intros c0 H0; apply Hcols; now right).
    cbn [copy_event_columns]. unfold copy_event_column.
    destruct (contains "event_" c) eqn:Hev.
    + destruct (getitem_In T c HcT) as [s Hs].
      rewrite (getitem_app_l T added c HcT), Hs. cbn [res_bind Ok].
      rewrite (setitem_app_r T added _ s (Hnew c HcT Hev)).
      destruct (IH (setitem added (replace "event_" "" c) s) Hrest)
        as (added' & Hrun & Hkeep & Hcopies & Horigin).
      exists added'. split; [exact Hrun|]. split; [|split].
      * intros c0 H0. apply Hkeep. apply columns_setitem_In. now right.
      * intros c0 [<- | H0] Hev0.
        -- apply Hkeep. apply columns_setitem_In. now left.
        -- now apply Hcopies.
      * intros c' Hc'. destruct (Horigin c' Hc')
          as [(c0 & H0 & Hev0 & Hname & Hval) | [Hin Hval]].
        -- left. exists c0. repeat split; auto. now right.
        -- destruct (string_dec c' (replace "event_" "" c)) as [-> | Hne].
           ++ left. exists c. repeat split; auto; [now left|].
              rewrite Hval, getitem_setitem_same. now rewrite Hs.
           ++ right. split.
              ** apply columns_setitem_In in Hin. destruct Hin; tauto.
              ** rewrite Hval. now apply getitem_setitem_other.
    + cbn [res_bind Ok].
      destruct (IH added Hrest) as (added' & Hrun & Hkeep & Hcopies & Horigin).
      exists added'. split; [exact Hrun|]. split; [exact Hkeep|]. split.
      * intros c0 [<- | H0] Hev0; [congruence | now apply Hcopies].
      * intros c' Hc'. destruct (Horigin c' Hc')
          as [(c0 & H0 & Hev0 & Hname & Hval) | Hold].
        -- left. exists c0. repeat split; auto. now right.
        -- now right.
Qed.

(** C10 as stated fails.  With a holiday named "yhat1" the engine's
    table has the columns "yhat1" and "event_yhat1"; the copy of the
    event column is written over the engine's "yhat1", which does not
    appear unchanged in the returned frame. *)
Lemma copy_overwrites_engine_column :
  forecast_with (engine_table "yhat1") (one_holiday "yhat1")
  = Ok [ ("ds", [AInt 19002; AInt 19003]);
         ("yhat1", [AInt 0; AInt 7]);
         ("event_yhat1", [AInt 0; AInt 7]) ]
  /\ getitem (engine_table "yhat1") "yhat1" = Ok [AInt 42; AInt 43].
Proof. split; vm_compute; reflexivity. Qed.

(** C8. The claim fails on a holiday whose name contains "event_": for
    the holiday "my_event_day" the engine's column is
    "event_my_event_day", and the returned frame has its copy under
    "my_day"; it has no column "my_event_day". *)
Theorem inner_event_text_is_removed :
  forecast_with (engine_table "my_event_day") (one_holiday "my_event_day")
  = Ok [ ("ds", [AInt 19002; AInt 19003]);
         ("yhat1", [AInt 42; AInt 43]);
         ("event_my_event_day", [AInt 0; AInt 7]);
         ("my_day", [AInt 0; AInt 7]) ]
  /\ res_bind
       (forecast_with (engine_table "my_event_day")
                      (one_holiday "my_event_day"))
       (fun frame => getitem frame "my_event_day")
     = Err (KeyError "my_event_day").
Proof. split; vm_compute; reflexivity. Qed.

Section PredictProperties.

Context {E : Type} {eng : NeuralProphet E}.

(** C10, amended.  Provided no assignment of the loop falls on a column
    of the engine's table (the name of a column that contains "event_",
    with "event_" removed, is not the name of a column of the table),
    [predict] neither removes nor renames nor changes a column of the
    table: the returned frame is the engine's table followed by the added
    columns.  For every column "event_" + n, with no further "event_" in
    n, the frame has the column n alongside the original; every added
    column has the values of the engine column it was copied from. *)
Theorem predict_keeps_engine_columns
    (d : DataFrame) (kw : kwargs) (s : Prophet E) (T : DataFrame) (e' : E) :
  no_clash ["df"] kw = Ok tt ->
  np_predict d kw (engine s) = (Ok T, e') ->
  copies_are_new T ->
  exists added,
    fst (predict (Some d) kw s) = Ok (T ++ added)
    /\ (forall c, In c (columns T) -> getitem (T ++ added) c = getitem T c)
    /\ (forall n, In ("event_" ++ n)%string (columns T) ->
                  contains "event_" n = false ->
                  In n (columns added)
                  /\ In ("event_" ++ n)%string (columns (T ++ added)))
    /\ (forall c', In c' (columns added) ->
          exists c, In c (columns T) /\ contains "event_" c = true
                    /\ replace "event_" "" c = c'
                    /\ getitem (T ++ added) c' = getitem T c).
Proof.
  intros Hkw Hengine Hnew.
  destruct (copy_event_columns_appends T Hnew (columns T) [] (fun c H => H))
    as (added & Hrun & _ & Hcopies & Horigin).
  rewrite app_nil_r in Hrun.
  exists added. split; [|split; [|split]].
  - unfold predict, bind, get, lift, ret. cbn. rewrite Hkw.
    unfold super. rewrite Hengine. cbn. exact Hrun.
  - intros c Hc. now apply getitem_app_l.
  - intros n Hn Hplain. split.
    + rewrite <- (replace_event_prefix n Hplain).
      apply Hcopies; [exact Hn | apply contains_event_prefix].
    + unfold columns. rewrite map_app. apply in_or_app. now left.
  - intros c' Hc'.
    destruct (Horigin c' Hc') as [(c & Hc & Hev & Hname & Hval) | [[] _]].
    exists c. repeat split; auto.
    rewrite getitem_app_r; [exact Hval|].
    rewrite <- Hname. now apply Hnew.
Qed.

End PredictProperties.

Lemma predict_keeps_engine_columns_witness :
  no_clash ["df"] [] = Ok tt
  /\ @np_predict _ (engine_returning (engine_table "NewYear"))
       two_future_days []
       (engine (fitted_with (engine_table "NewYear") (one_holiday "NewYear")))
     = (Ok (engine_table "NewYear"),
        engine (fitted_with (engine_table "NewYear") (one_holiday "NewYear")))
  /\ copies_are_new (engine_table "NewYear")
  /\ exists added,
       forecast_with (engine_table "NewYear") (one_holiday "NewYear")
       = Ok (engine_table "NewYear" ++ added)
       /\ In "NewYear" (columns added).
Proof.
  assert (Hnew : copies_are_new (engine_table "NewYear")).
  { intros c Hc Hev. simpl in Hc.
    destruct Hc as [<- | [<- | [<- | []]]]; try discriminate.
    simpl. intuition discriminate. }
  split; [reflexivity|]. split; [reflexivity|]. split; [exact Hnew|].
  destruct (@predict_keeps_engine_columns _
              (engine_returning (engine_table "NewYear"))
              two_future_days []
              (fitted_with (engine_table "NewYear") (one_holiday "NewYear"))
              (engine_table "NewYear") _ eq_refl eq_refl Hnew)
    as (added & Hrun & _ & Hcopies & _).
  exists added. split; [exact Hrun|].
  apply (Hcopies "NewYear"); [simpl; tauto | reflexivity].
Defined.

(** ** Further examples *)

(** The end-to-end example of the specification (section 8): New Year's
    Day 2023 with the window [-1,0] on the history from 25 December 2022
    to 5 January 2023.  After [fit], the stored history has the indicator
    "NewYear", true on 31 December and 1 January only. *)
Example new_year_end_to_end :
  option_map
    (fun h => getitem h "NewYear")
    (history (snd (@fit _ engine0 twelve_days []
                     (snd (@construct _ engine0 (with_holidays new_year))))))
  = Some (Ok (map (fun k => ABool ((k =? 6)%nat || (k =? 7)%nat)) (seq 0 12))).
Proof. vm_compute. reflexivity. Qed.

(** An extra keyword argument that repeats a keyword of the call of the
    engine's constructor is Python's [TypeError]; the engine is not
    reached. *)
Example repeated_engine_keyword :
  @construct _ engine0 repeated_keyword
  = (Err (TypeError_multiple_values "prediction_interval"), @blank _ engine0).
Proof. vm_compute. reflexivity. Qed.

(** Two "M" periods are 60 periods for the engine. *)
Example two_months_are_60_periods :
  calls (snd (@make_future_dataframe _ engine0 2 "M" true [] fitted_model))
  = calls fitted_model
    ++ [Call_make_future_dataframe (Some two_day_history) None 60 true []].
Proof. vm_compute. reflexivity. Qed.

(** * Further properties of the wrapper *)

(** ** fit: what reaches the engine and what is stored *)

Lemma del_key_absent (k : string) (kw : kwargs) :
  has_key k kw = false -> del_key k kw = kw.
Proof.
  unfold has_key, del_key, keys.
  induction kw as [|[k' v] rest IH]; simpl; [reflexivity|].
  intros Hno. apply orb_false_iff in Hno. destruct Hno as [Hk Hrest].
  rewrite Hk. simpl. now rewrite IH.
Qed.

Lemma forwarded_kwargs (k : string) (kw : kwargs) :
  (if has_key k kw then del_key k kw else kw) = del_key k kw.
Proof.
  destruct (has_key k kw) eqn:Hk; [reflexivity|].
  symmetry. now apply del_key_absent.
Qed.



Section FitRuns.

Context {E : Type} {eng : NeuralProphet E}.

(** The frame [fit] is about to hand to the engine: the caller's frame,
    or what [create_df_with_events] makes of it when the model has
    events. *)
Lemma fit_run (df : DataFrame) (kw : kwargs) (s : Prophet E) :
  existsb (String.eqb "cap") (columns df) = false ->
  no_clash ["df"] (del_key "show_progress" kw) = Ok tt ->
  fit df kw s
  = bind (match events_df s with
          | Some ev => super (Call_create_df_with_events df ev)
                             (np_create_df_with_events df ev)
          | None => ret df
          end)
         (fun d =>
            bind (super (Call_fit d (del_key "show_progress" kw))
                        (np_fit d (del_key "show_progress" kw)))
                 (fun metrics_df =>
                    bind (set_history (Some d)) (fun _ => ret metrics_df))) s.
Proof.
  intros Hcap Hkw. unfold fit. rewrite Hcap, forwarded_kwargs.
  unfold bind, get, lift, ret. cbn.
  destruct (events_df s) as [ev|].
  - destruct (super (Call_create_df_with_events df ev)
                    (np_create_df_with_events df ev) s) as [[e|d] s1];
      [reflexivity|].
    now rewrite Hkw.
  - now rewrite Hkw.
Qed.


(** X2. A [fit] that raises, whether the wrapper or the engine raised,
    stores nothing: the history, the events table, the log and the plain
    attributes are as they were before the call. *)
Theorem failed_fit_stores_nothing
    (df : DataFrame) (kw : kwargs) (s : Prophet E) (e : exn) :
  fst (fit df kw s) = Err e ->
  history (snd (fit df kw s)) = history s
  /\ events_df (snd (fit df kw s)) = events_df s
  /\ log (snd (fit df kw s)) = log s
  /\ attrs (snd (fit df kw s)) = attrs s.
Proof.
  unfold fit. rewrite forwarded_kwargs.
  destruct (existsb (String.eqb "cap") (columns df));
    unfold bind, get, lift, ret, raise, super, set_history; cbn; [intros; repeat split; auto|].
  destruct (events_df s) as [ev|] eqn:Hev; cbn.
  - destruct (np_create_df_with_events df ev (engine s)) as [[e0|d] e1]; cbn;
      [intros; repeat split; auto|].
    destruct (no_clash ["df"] (del_key "show_progress" kw)); cbn; [intros; repeat split; auto|].
    destruct (np_fit d (del_key "show_progress" kw) e1) as [[e0|m] e2]; cbn;
      [intros; repeat split; auto | discriminate].
  - destruct (no_clash ["df"] (del_key "show_progress" kw)); cbn; [intros; repeat split; auto|].
    destruct (np_fit df (del_key "show_progress" kw) (engine s))
      as [[e0|m] e2]; cbn; [intros; repeat split; auto | discriminate].
Qed.

(** After a successful [fit] the history is the frame of the last call,
    the engine's [fit]; the rest of the object is as before. *)
Lemma fit_ok (df : DataFrame) (kw : kwargs) (s : Prophet E)
    (metrics : option DataFrame) :
  fst (fit df kw s) = Ok metrics ->
  exists d before,
    history (snd (fit df kw s)) = Some d
    /\ calls (snd (fit df kw s))
       = before ++ [Call_fit d (del_key "show_progress" kw)]
    /\ events_df (snd (fit df kw s)) = events_df s
    /\ log (snd (fit df kw s)) = log s.
Proof.
  unfold fit. rewrite forwarded_kwargs.
  destruct (existsb (String.eqb "cap") (columns df));
    unfold bind, get, lift, ret, raise, super, set_history; cbn;
    [discriminate|].
  destruct (events_df s) as [ev|] eqn:Hev; cbn.
  - destruct (np_create_df_with_events df ev (engine s)) as [[e0|d] e1]; cbn;
      [discriminate|].
    destruct (no_clash ["df"] (del_key "show_progress" kw)); cbn;
      [discriminate|].
    destruct (np_fit d (del_key "show_progress" kw) e1) as [[e0|m] e2]; cbn;
      [discriminate|].
    intros _. exists d, (calls s ++ [Call_create_df_with_events df ev]). auto.
  - destruct (no_clash ["df"] (del_key "show_progress" kw)); cbn;
      [discriminate|].
    destruct (np_fit df (del_key "show_progress" kw) (engine s))
      as [[e0|m] e2]; cbn; [discriminate|].
    intros _. exists df, (calls s). auto.
Qed.


End FitRuns.

(** ** predict: the returned frame and the object *)

Lemma columns_setitem (df : DataFrame) (c : string) (s : Series) :
  (In c (columns df) /\ columns (setitem df c s) = columns df)
  \/ (~ In c (columns df) /\ columns (setitem df c s) = columns df ++ [c]).
Proof.
  induction df as [|[c0 s0] rest IH]; simpl.
  - right. split; [tauto | reflexivity].
  - destruct (String.eqb c c0) eqn:Heq; simpl.
    + apply String.eqb_eq in Heq. subst c0. left. split; [now left | reflexivity].
    + assert (Hne : c0 <> c).
      { intros ->. rewrite String.eqb_refl in Heq. discriminate. }
      destruct IH as [[Hin Hcols] | [Hnot Hcols]]; rewrite Hcols.
      * left. split; [now right | reflexivity].
      * right. split; [|reflexivity]. intros [Heq' | Hin]; contradiction.
Qed.

(** The loop of [predict] always runs to its end; it keeps the column
    labels it found, in their order, and appends the new ones. *)
Lemma copy_event_columns_labels (cols : list string) :
  forall df,
    (forall c, In c cols -> In c (columns df)) ->
    exists R extra,
      copy_event_columns cols df = Ok R
      /\ columns R = columns df ++ extra
      /\ forall c', In c' extra ->
                    exists c, In c cols /\ contains "event_" c = true
                              /\ c' = replace "event_" "" c.
Proof.
  induction cols as [|c rest IH]; intros df Hcols.
  - exists df, []. cbn. rewrite app_nil_r. repeat split. intros c' [].
  - assert (Hc : In c (columns df)) by (apply Hcols; now left).
    cbn [copy_event_columns]. unfold copy_event_column.
    destruct (contains "event_" c) eqn:Hev.
    + destruct (getitem_In df c Hc) as [s Hs]. rewrite Hs. cbn [res_bind Ok].
      destruct (columns_setitem df (replace "event_" "" c) s)
        as [[_ Hlabels] | [_ Hlabels]].
      * destruct (IH (setitem df (replace "event_" "" c) s))
          as (R & extra & Hrun & HR & Hextra).
        { intros c0 H0. rewrite Hlabels. apply Hcols. now right. }
        exists R, extra. split; [exact Hrun|]. split; [now rewrite HR, Hlabels|].
        intros c' Hc'. destruct (Hextra c' Hc') as (c0 & H0 & Hev0 & Hname).
        exists c0. repeat split; auto. now right.
      * destruct (IH (setitem df (replace "event_" "" c) s))
          as (R & extra & Hrun & HR & Hextra).
        { intros c0 H0. rewrite Hlabels. apply in_or_app. left.
          apply Hcols. now right. }
        exists R, (replace "event_" "" c :: extra).
        split; [exact Hrun|]. split.
        { rewrite HR, Hlabels, <- app_assoc. reflexivity. }
        intros c' [<- | Hc'].
        -- exists c. repeat split; auto. now left.
        -- destruct (Hextra c' Hc') as (c0 & H0 & Hev0 & Hname).
           exists c0. repeat split; auto. now right.
    + cbn [res_bind Ok].
      destruct (IH df) as (R & extra & Hrun & HR & Hextra).
      { intros c0 H0. apply Hcols. now right. }
      exists R, extra. split; [exact Hrun|]. split; [exact HR|].
      intros c' Hc'. destruct (Hextra c' Hc') as (c0 & H0 & Hev0 & Hname).
      exists c0. repeat split; auto. now right.
Qed.

Lemma copy_event_columns_nothing (cols : list string) (df : DataFrame) :
  (forall c, In c cols -> contains "event_" c = false) ->
  copy_event_columns cols df = Ok df.
Proof.
  induction cols as [|c rest IH]; intros Hplain; [reflexivity|].
  cbn [copy_event_columns]. unfold copy_event_column.
  rewrite (Hplain c) by now left. cbn [res_bind Ok].
  apply IH. intros c0 H0. apply Hplain. now right.
Qed.

Section PredictRuns.

Context {E : Type} {eng : NeuralProphet E}.

(** [predict] on the frame [d], given by the caller or copied from the
    history. *)
Lemma predict_run (given : option DataFrame) (d : DataFrame) (kw : kwargs)
    (s : Prophet E) :
  given = Some d \/ (given = None /\ history s = Some d) ->
  no_clash ["df"] kw = Ok tt ->
  predict given kw s
  = bind (super (Call_predict d kw) (np_predict d kw))
         (fun T => lift (copy_event_columns (columns T) T)) s.
Proof.
  intros Hd Hkw. unfold predict, bind, get, lift, ret. cbn.
  destruct Hd as [-> | [-> Hh]].
  - cbn. now rewrite Hkw.
  - rewrite Hh. cbn. now rewrite Hkw.
Qed.

(** X4. When the engine has answered with a table, [predict] raises
    nothing of its own and loses no column label: the labels of the
    returned frame are the labels of the engine's table, in the same
    order, followed by the labels it added, each of them the label of an
    engine column containing "event_" with "event_" removed. *)
Theorem predict_keeps_every_label
    (d : DataFrame) (kw : kwargs) (s : Prophet E) (T : DataFrame) (e' : E) :
  no_clash ["df"] kw = Ok tt ->
  np_predict d kw (engine s) = (Ok T, e') ->
  exists R extra,
    fst (predict (Some d) kw s) = Ok R
    /\ columns R = columns T ++ extra
    /\ forall c', In c' extra ->
                  exists c, In c (columns T) /\ contains "event_" c = true
                            /\ c' = replace "event_" "" c.
Proof.
  intros Hkw Hengine.
  destruct (copy_event_columns_labels (columns T) T (fun c H => H))
    as (R & extra & Hrun & HR & Hextra).
  exists R, extra. split; [|split; assumption].
  rewrite (predict_run (Some d) d kw s (or_introl eq_refl) Hkw).
  unfold bind, super, lift. rewrite Hengine. cbn. exact Hrun.
Qed.

(** X5. When no column label of the engine's table contains "event_",
    [predict] returns the engine's table exactly as it is. *)
Theorem predict_without_events_is_engine_table
    (d : DataFrame) (kw : kwargs) (s : Prophet E) (T : DataFrame) (e' : E) :
  no_clash ["df"] kw = Ok tt ->
  np_predict d kw (engine s) = (Ok T, e') ->
  (forall c, In c (columns T) -> contains "event_" c = false) ->
  fst (predict (Some d) kw s) = Ok T.
Proof.
  intros Hkw Hengine Hplain.
  rewrite (predict_run (Some d) d kw s (or_introl eq_refl) Hkw).
  unfold bind, super, lift. rewrite Hengine. cbn.
  now apply copy_event_columns_nothing.
Qed.

(** X6. [predict] stores nothing: whatever its arguments and its
    outcome, the history, the events table, the log and the plain
    attributes of the object are as before, and it calls the engine at
    most once.  With a frame given it does not look at the history: the
    outcome is the same whatever history is stored. *)
Theorem predict_stores_nothing
    (given : option DataFrame) (kw : kwargs) (s : Prophet E) :
  let out := predict given kw s in
  history (snd out) = history s
  /\ events_df (snd out) = events_df s
  /\ log (snd out) = log s
  /\ attrs (snd out) = attrs s
  /\ (calls (snd out) = calls s
      \/ exists d, calls (snd out) = calls s ++ [Call_predict d kw])
  /\ (forall d h, given = Some d ->
                  predict (Some d) kw (with_history h s)
                  = (fst out, with_history h (snd out))).
Proof.
  intros out. subst out.
  unfold predict, bind, get, lift, ret, raise, super, with_history. cbn.
  destruct given as [d|].
  - cbn. destruct (no_clash ["df"] kw) as [e|[]]; cbn.
    { repeat split; auto. }
    destruct (np_predict d kw (engine s)) as [[e|T] e1] eqn:Hnp; cbn;
      repeat split; eauto;
      try (intros d0 h Hd; injection Hd as <-; rewrite Hnp; reflexivity).
  - destruct (history s) as [h|] eqn:Hh; cbn.
    + destruct (no_clash ["df"] kw) as [e|[]]; cbn.
      { repeat split; auto; try (intros d h0 Hd; discriminate). }
      unfold copy.
      destruct (np_predict h kw (engine s)) as [[e|T] e1]; cbn;
        repeat split; eauto; try (intros d h0 Hd; discriminate).
    + repeat split; auto; try (intros d h0 Hd; discriminate).
Qed.

(** X7. The ordinary case of the event copies: when no assignment of
    the loop falls on a column of the engine's table, and the column
    "event_" + n (no further "event_" in n) is the only one whose label
    becomes n, the returned frame has the column n with the values of
    the engine's "event_" + n, and the original column beside it. *)
Theorem event_copy_has_engine_values
    (d : DataFrame) (kw : kwargs) (s : Prophet E) (T : DataFrame) (e' : E)
    (n : string) :
  no_clash ["df"] kw = Ok tt ->
  np_predict d kw (engine s) = (Ok T, e') ->
  copies_are_new T ->
  In ("event_" ++ n)%string (columns T) ->
  contains "event_" n = false ->
  (forall c, In c (columns T) -> contains "event_" c = true ->
             replace "event_" "" c = n -> c = ("event_" ++ n)%string) ->
  exists R,
    fst (predict (Some d) kw s) = Ok R
    /\ getitem R n = getitem T ("event_" ++ n)%string
    /\ getitem R ("event_" ++ n)%string = getitem T ("event_" ++ n)%string.
Proof.
  intros Hkw Hengine Hnew Hin Hplain Honly.
  destruct (copy_event_columns_appends T Hnew (columns T) [] (fun c H => H))
    as (added & Hrun & _ & Hcopies & Horigin).
  rewrite app_nil_r in Hrun.
  exists (T ++ added). split; [|split].
  - rewrite (predict_run (Some d) d kw s (or_introl eq_refl) Hkw).
    unfold bind, super, lift. rewrite Hengine. cbn. exact Hrun.
  - assert (Hn : In n (columns added)).
    { rewrite <- (replace_event_prefix n Hplain).
      apply Hcopies; [exact Hin | apply contains_event_prefix]. }
    destruct (Horigin n Hn) as [(c & Hc & Hev & Hname & Hval) | [[] _]].
    rewrite (Honly c Hc Hev Hname) in Hval.
    rewrite getitem_app_r; [exact Hval|].
    rewrite <- (replace_event_prefix n Hplain).
    apply Hnew; [exact Hin | apply contains_event_prefix].
  - now apply getitem_app_l.
Qed.

End PredictRuns.

(** ** The constructor: what is registered and what is stored *)


Lemma getitem_rename_other (old new c : string) (df : DataFrame) :
  c <> old -> c <> new -> getitem (rename old new df) c = getitem df c.
Proof.
  intros Hold Hnew. induction df as [|[c0 s0] rest IH]; simpl; [reflexivity|].
  destruct (String.eqb c0 old) eqn:H0.
  - apply String.eqb_eq in H0. subst c0.
    destruct (String.eqb c new) eqn:H1;
      [apply String.eqb_eq in H1; contradiction|].
    destruct (String.eqb c old) eqn:H2;
      [apply String.eqb_eq in H2; contradiction|].
    exact IH.
  - destruct (String.eqb c c0); [reflexivity | exact IH].
Qed.

Lemma getitem_rename_new (old new : string) (df : DataFrame) (s : Series) :
  ~ In new (columns df) -> getitem df old = Ok s ->
  getitem (rename old new df) new = Ok s.
Proof.
  induction df as [|[c0 s0] rest IH]; simpl; [discriminate|].
  intros Hnot Hget.
  destruct (String.eqb c0 old) eqn:H0.
  - apply String.eqb_eq in H0. subst c0.
    rewrite String.eqb_refl in *. exact Hget.
  - destruct (String.eqb old c0) eqn:H1.
    { apply String.eqb_eq in H1. subst c0.
      rewrite String.eqb_refl in H0. discriminate. }
    destruct (String.eqb new c0) eqn:H2.
    { apply String.eqb_eq in H2. subst c0. tauto. }
    apply IH; [tauto | exact Hget].
Qed.

Lemma columns_rename (old new : string) (df : DataFrame) :
  old <> new -> ~ In old (columns (rename old new df)).
Proof.
  intros Hne. induction df as [|[c0 s0] rest IH]; simpl; [tauto|].
  intros [Heq | Hin]; [|contradiction].
  destruct (String.eqb c0 old) eqn:H0; [congruence|].
  subst c0. rewrite String.eqb_refl in H0. discriminate.
Qed.

Lemma columns_drop (labels : list string) (df : DataFrame) (c : string) :
  In c (columns (drop labels df)) <-> In c (columns df) /\ ~ In c labels.
Proof.
  unfold drop, columns. rewrite !in_map_iff. split.
  - intros ([c0 s0] & <- & Hin). apply filter_In in Hin.
    destruct Hin as [Hin Hkeep]. simpl in *. split.
    + exists (c0, s0). auto.
    + intros Hl. apply existsb_eqb_In in Hl. rewrite Hl in Hkeep. discriminate.
  - intros [([c0 s0] & <- & Hin) Hnot]. exists (c0, s0). split; [reflexivity|].
    apply filter_In. split; [exact Hin|]. simpl in *.
    destruct (existsb (String.eqb c0) labels) eqn:Hl; [|reflexivity].
    apply existsb_eqb_In in Hl. contradiction.
Qed.

Lemma advisories_In (a : InitArgs) :
  (In prior_scale_msg (advisories a)
   <-> truthy (seasonality_prior_scale a)
       || truthy (holidays_prior_scale a)
       || truthy (changepoint_prior_scale a) = true)
  /\ (In samples_msg (advisories a)
      <-> truthy (mcmc_samples a) || truthy (uncertainty_samples a) = true)
  /\ (In stan_backend_msg (advisories a)
      <-> truthy (stan_backend a) = true)
  /\ NoDup (advisories a).
Proof.
  unfold advisories.
  destruct (truthy (seasonality_prior_scale a)
            || truthy (holidays_prior_scale a)
            || truthy (changepoint_prior_scale a));
    destruct (truthy (mcmc_samples a) || truthy (uncertainty_samples a));
    destruct (truthy (stan_backend a)); cbn [app];
    (split; [|split; [|split]]);
    try (split; [intros _; reflexivity | intros _; simpl; tauto]);
    try (split; [intros Hin; simpl in Hin; exfalso;
                 repeat (destruct Hin as [Hin | Hin]; [discriminate|]);
                 exact Hin
                | discriminate]);
    repeat (constructor; [simpl; intuition discriminate|]); constructor.
Qed.

Section ConstructorRuns.

Context {E : Type} {eng : NeuralProphet E}.

(** X8. After a successful construction with a holidays table, the
    stored events table is the holidays table with the window columns
    removed and the column "holiday" under the label "event": it has no
    column "holiday", "lower_window" or "upper_window", its column
    "event" holds the holiday names (the table having had no column
    "event" of its own), and every other column, the dates among them, is
    as it was in the holidays table. *)
Theorem events_table_of_holidays
    (a : InitArgs) (h : DataFrame) (s : Prophet E) :
  holidays a = Some h ->
  construct a = (Ok tt, s) ->
  exists ev names,
    events_df s = Some ev
    /\ getitem h "holiday" = Ok names
    /\ (~ In "event" (columns h) -> getitem ev "event" = Ok names)
    /\ ~ In "holiday" (columns ev)
    /\ ~ In "lower_window" (columns ev)
    /\ ~ In "upper_window" (columns ev)
    /\ forall c, ~ In c ["holiday"; "event"; "lower_window"; "upper_window"] ->
                 getitem ev c = getitem h c.
Proof.
  intros Hh Hok. apply construct_ok in Hok. destruct Hok as [_ Hok].
  rewrite Hh in Hok.
  destruct Hok as (names & lowers & uppers & lo & hi
                   & Hn & _ & _ & _ & _ & _ & Hev).
  exists (events_table h), names. unfold events_table, copy in *.
  split; [exact Hev|]. split; [exact Hn|]. split; [|split; [|split; [|split]]].
  - intros Hnone. rewrite getitem_drop by (simpl; intuition discriminate).
    now apply getitem_rename_new.
  - intros Hin. apply columns_drop in Hin. destruct Hin as [Hin _].
    revert Hin. apply columns_rename. discriminate.
  - intros Hin. apply columns_drop in Hin. simpl in Hin. tauto.
  - intros Hin. apply columns_drop in Hin. simpl in Hin. tauto.
  - intros c Hc. simpl in Hc.
    rewrite getitem_drop by (simpl; intuition).
    apply getitem_rename_other; intuition.
Qed.




(** X12. When the engine's constructor raises, the construction raises
    the same exception and nothing else has happened: the holidays table
    was not looked at (no event is registered and no events table
    stored, however the table is made), and the only call is the one of
    the engine's constructor; the notices were logged before it. *)
Theorem engine_failure_stops_construction (a : InitArgs) (e : exn) :
  no_clash (keys (engine_keywords a)) (extra_kwargs a) = Ok tt ->
  fst (np_init (engine_keywords a ++ extra_kwargs a) np_new) = Err e ->
  fst (construct a) = Err e
  /\ calls (snd (construct a))
     = [Call_init (engine_keywords a ++ extra_kwargs a)]
  /\ events_df (snd (construct a)) = None
  /\ attrs (snd (construct a)) = []
  /\ log (snd (construct a)) = advisories a.
Proof.
  intros Hkw Hinit. unfold construct, __init__, bind.
  rewrite check_unsupported_run. unfold init_engine, bind, lift.
  rewrite Hkw. unfold super. cbn.
  destruct (np_init (engine_keywords a ++ extra_kwargs a) np_new)
    as [[e0|[]] e1]; cbn in *; [|discriminate].
  injection Hinit as ->. repeat split.
Qed.

(** X13. Whatever the outcome of a construction, its log consists of
    the notices of the three groups, each at most once: the prior-scale
    notice is in the log exactly when one of the three prior scales is
    true for Python, the samples notice exactly when [mcmc_samples] or
    [uncertainty_samples] is, the stan notice exactly when [stan_backend]
    is. *)
Theorem notices_exactly_when_truthy (a : InitArgs) :
  let l := log (snd (construct a)) in
  (In prior_scale_msg l
   <-> truthy (seasonality_prior_scale a)
       || truthy (holidays_prior_scale a)
       || truthy (changepoint_prior_scale a) = true)
  /\ (In samples_msg l
      <-> truthy (mcmc_samples a) || truthy (uncertainty_samples a) = true)
  /\ (In stan_backend_msg l <-> truthy (stan_backend a) = true)
  /\ NoDup l
  /\ (List.length l <= 3)%nat.
Proof.
  intros l. subst l.
  destruct (construct_after_checks a) as (r & s & -> & _). cbn [snd].
  unfold with_log. cbn [log].
  destruct (advisories_In a) as (Hp & Hs & Hb & Hnd).
  repeat (split; [assumption|]).
  unfold advisories.
  destruct (truthy (seasonality_prior_scale a)
            || truthy (holidays_prior_scale a)
            || truthy (changepoint_prior_scale a));
    destruct (truthy (mcmc_samples a) || truthy (uncertainty_samples a));
    destruct (truthy (stan_backend a)); cbn; lia.
Qed.

End ConstructorRuns.

(** ** make_future_dataframe: keywords and the object *)

Lemma no_clash_repeated (explicit : list string) (extra : kwargs) (k : string) :
  In k (keys extra) -> In k explicit ->
  exists k', no_clash explicit extra = Err (TypeError_multiple_values k')
             /\ In k' explicit.
Proof.
  intros Hk Hex. unfold no_clash.
  destruct (find (fun p => existsb (String.eqb (fst p)) explicit) extra)
    as [[k' v]|] eqn:Hfind.
  - exists k'. split; [reflexivity|].
    apply find_some in Hfind. destruct Hfind as [_ Hin]. simpl in Hin.
    now apply existsb_eqb_In in Hin.
  - exfalso. unfold keys in Hk. apply in_map_iff in Hk.
    destruct Hk as ([k0 v0] & Hfst & Hin). simpl in Hfst. subst k0.
    pose proof (find_none _ _ Hfind _ Hin) as Hno. simpl in Hno.
    apply existsb_eqb_In in Hex. congruence.
Qed.

Section FutureRuns.

Context {E : Type} {eng : NeuralProphet E}.

(** X14. [make_future_dataframe] stores nothing: whatever its
    arguments and its outcome, the history, the events table, the log and
    the plain attributes are as before, and the engine is called at most
    once, with the stored history, with the stored events table (none
    when the model has none), and with [include_history] as
    [n_historic_predictions]. *)
Theorem make_future_dataframe_stores_nothing
    (periods : Z) (freq : string) (inc : bool) (kw : kwargs) (s : Prophet E) :
  let out := make_future_dataframe periods freq inc kw s in
  history (snd out) = history s
  /\ events_df (snd out) = events_df s
  /\ log (snd out) = log s
  /\ attrs (snd out) = attrs s
  /\ (calls (snd out) = calls s
      \/ calls (snd out)
         = calls s ++ [Call_make_future_dataframe (history s) (events_df s)
                         (convert_periods freq periods) inc kw]).
Proof.
  intros out. subst out.
  unfold make_future_dataframe, bind, get, lift, super. cbn.
  destruct (events_df s) as [ev|] eqn:Hev.
  - destruct (no_clash ["df"; "events_df"; "periods";
                        "n_historic_predictions"] kw) as [e|[]]; cbn;
      [auto 6|].
    destruct (np_make_future_dataframe (history s) (Some ev)
                (convert_periods freq periods) inc kw (engine s))
      as [r e1]; cbn. auto 6.
  - destruct (no_clash ["df"; "periods"; "n_historic_predictions"] kw)
      as [e|[]]; cbn; [auto 6|].
    destruct (np_make_future_dataframe (history s) None
                (convert_periods freq periods) inc kw (engine s))
      as [r e1]; cbn. auto 6.
Qed.

(** X15. An extra keyword argument [events_df] is accepted or rejected
    by the model's holidays.  On a model with an events table it repeats
    the keyword the wrapper writes itself: the call raises [TypeError]
    and the engine is not reached.  On a model without one it is passed
    to the engine among the extra keyword arguments. *)
Theorem events_df_keyword
    (periods : Z) (freq : string) (inc : bool) (kw : kwargs) (s : Prophet E) :
  In "events_df" (keys kw) ->
  (forall ev, events_df s = Some ev ->
     exists k, make_future_dataframe periods freq inc kw s
               = (Err (TypeError_multiple_values k), s))
  /\ (events_df s = None ->
      (forall k, In k (keys kw) ->
                 ~ In k ["df"; "periods"; "n_historic_predictions"]) ->
      calls (snd (make_future_dataframe periods freq inc kw s))
      = calls s ++ [Call_make_future_dataframe (history s) None
                      (convert_periods freq periods) inc kw]
      /\ (fst (make_future_dataframe periods freq inc kw s),
          engine (snd (make_future_dataframe periods freq inc kw s)))
         = np_make_future_dataframe (history s) None
             (convert_periods freq periods) inc kw (engine s)).
Proof.
  intros Hkey. split.
  - intros ev Hev.
    destruct (no_clash_repeated
                ["df"; "events_df"; "periods"; "n_historic_predictions"]
                kw "events_df" Hkey) as (k & Hclash & _);
      [simpl; tauto|].
    exists k. unfold make_future_dataframe, bind, get, lift. cbn.
    rewrite Hev, Hclash. reflexivity.
  - intros Hnone Hfree.
    unfold make_future_dataframe, bind, get, lift. cbn.
    rewrite Hnone, (no_clash_ok _ kw Hfree). unfold super.
    destruct (np_make_future_dataframe (history s) None
                (convert_periods freq periods) inc kw (engine s))
      as [r e1]. cbn. auto.
Qed.

(** X16. After a successful [fit], [predict()] without a frame asks
    the engine for a prediction on the very frame it was fitted on
    (with the event columns, if the model has events): the two calls
    follow each other with the same frame. *)
Theorem predict_after_fit_uses_fitted_frame
    (df : DataFrame) (kw kw' : kwargs) (s : Prophet E)
    (metrics : option DataFrame) :
  fst (fit df kw s) = Ok metrics ->
  no_clash ["df"] kw' = Ok tt ->
  exists d before,
    calls (snd (predict None kw' (snd (fit df kw s))))
    = before ++ [Call_fit d (del_key "show_progress" kw); Call_predict d kw']
    /\ fst (predict None kw' (snd (fit df kw s)))
       = res_bind (fst (np_predict d kw' (engine (snd (fit df kw s)))))
                  (fun T => copy_event_columns (columns T) T).
Proof.
  intros Hfit Hkw.
  destruct (fit_ok df kw s metrics Hfit) as (d & before & Hh & Hcalls & _).
  exists d, before.
  rewrite (predict_run None d kw' _ (or_intror (conj eq_refl Hh)) Hkw).
  unfold bind, super, lift.
  destruct (np_predict d kw' (engine (snd (fit df kw s)))) as [[e|T] e1];
    cbn; rewrite Hcalls, <- app_assoc; auto.
Qed.



End FutureRuns.

(** ** Plotting *)

Lemma lookup_app_one (k k' : string) (v : pyobj) (bound : pykwargs) :
  lookup k (bound ++ [(k', v)])
  = match lookup k bound with
    | Some w => Some w
    | None => if String.eqb k k' then Some v else None
    end.
Proof.
  induction bound as [|[k0 v0] rest IH]; simpl; [reflexivity|].
  destruct (String.eqb k k0); [reflexivity | exact IH].
Qed.

(** Keywords leave the other parameters as they were bound. *)
Lemma bind_keywords_other (sig : signature) (kw : pykwargs) :
  forall bound bound' k,
    bind_keywords sig bound kw = inr bound' ->
    ~ In k (map fst kw) ->
    lookup k bound' = lookup k bound.
Proof.
  induction kw as [|[k0 v0] rest IH]; intros bound bound' k Hbind Hnot.
  - simpl in Hbind. now injection Hbind as <-.
  - simpl in Hbind, Hnot.
    destruct (negb (existsb (String.eqb k0) (map fst sig))); [discriminate|].
    destruct (lookup k0 bound) eqn:Hk0; [discriminate|].
    rewrite (IH _ _ k Hbind) by tauto.
    rewrite lookup_app_one.
    destruct (lookup k bound); [reflexivity|].
    destruct (String.eqb k k0) eqn:Heq; [|reflexivity].
    apply String.eqb_eq in Heq. subst k0. tauto.
Qed.

(** Distinct keywords that name parameters without a value bind. *)
Lemma bind_keywords_succeeds (sig : signature) (kw : pykwargs) :
  forall bound,
    NoDup (map fst kw) ->
    (forall k, In k (map fst kw) ->
               In k (map fst sig) /\ lookup k bound = None) ->
    exists bound', bind_keywords sig bound kw = inr bound'.
Proof.
  induction kw as [|[k0 v0] rest IH]; intros bound Hnd Hok.
  - exists bound. reflexivity.
  - simpl in *. inversion Hnd as [|? ? Hnot Hnd']; subst.
    destruct (Hok k0 (or_introl eq_refl)) as [Hparam Hfree].
    apply existsb_eqb_In in Hparam. rewrite Hparam, Hfree. cbn [negb].
    apply IH; [exact Hnd'|].
    intros k Hk. destruct (Hok k (or_intror Hk)) as [Hp Hf].
    split; [exact Hp|]. rewrite lookup_app_one, Hf.
    destruct (String.eqb k k0) eqn:Heq; [|reflexivity].
    apply String.eqb_eq in Heq. subst k0. contradiction.
Qed.

Section PlotProperties.

Context {E : Type} {eng : NeuralProphet E} {plots : NeuralProphetPlot E}.

(** X19. On a Prophet object [plot_plotly] always raises [TypeError]:
    it calls [plot] with the keyword [plotting_backend], a keyword
    [Prophet.plot] does not have (or one the caller has given as well).
    Nothing is plotted, no warning is logged and the object is
    unchanged. *)
Theorem plot_plotly_raises_TypeError
    (forecast : pyobj) (kw : pykwargs) (st : Plotting E) :
  exists t,
    plot_plotly forecast kw st = (inl (Call_error t), st)
    /\ (t = UnexpectedKeyword "plotting_backend"
        \/ (t = MultipleValues "plotting_backend"
            /\ In "plotting_backend" (map fst kw))).
Proof.
  unfold plot_plotly, call_keywords.
  destruct (find _ kw) as [[k v]|] eqn:Hfind.
  - apply find_some in Hfind. destruct Hfind as [Hin Hk]. cbn in Hk.
    rewrite orb_false_r in Hk. apply String.eqb_eq in Hk. subst k.
    eexists. split; [reflexivity|]. right. split; [reflexivity|].
    change "plotting_backend" with (fst ("plotting_backend", v)).
    now apply in_map.
  - eexists. split; [reflexivity|]. now left.
Qed.

(** X20. On a Prophet object [plot_components_plotly] always raises
    [TypeError], for the same reason: [Prophet.plot_components] has no
    parameter [plotting_backend]. *)
Theorem plot_components_plotly_raises_TypeError
    (forecast : pyobj) (kw : pykwargs) (st : Plotting E) :
  exists t,
    plot_components_plotly forecast kw st = (inl (Call_error t), st)
    /\ (t = UnexpectedKeyword "plotting_backend"
        \/ (t = MultipleValues "plotting_backend"
            /\ In "plotting_backend" (map fst kw))).
Proof.
  unfold plot_components_plotly, call_keywords.
  destruct (find _ kw) as [[k v]|] eqn:Hfind.
  - apply find_some in Hfind. destruct Hfind as [Hin Hk]. cbn in Hk.
    rewrite orb_false_r in Hk. apply String.eqb_eq in Hk. subst k.
    eexists. split; [reflexivity|]. right. split; [reflexivity|].
    change "plotting_backend" with (fst ("plotting_backend", v)).
    now apply in_map.
  - eexists. split; [reflexivity|]. now left.
Qed.

(** X21. [plot(fcst, ...)] with any of [uncertainty], [plot_cap] and
    [include_legend] given by keyword: the values are dropped.  The
    warning is logged once, the engine's [plot] is called once with
    [fcst] and the defaults of [ax], [xlabel], [ylabel] and [figsize] and
    nothing else, and the call returns [None] even when the engine
    returned a figure. *)
Theorem plot_drops_unsupported_attributes
    (fcst : pyobj) (kw : pykwargs) (st : Plotting E) :
  NoDup (map fst kw) ->
  (forall k, In k (map fst kw) ->
             In k ["uncertainty"; "plot_cap"; "include_legend"]) ->
  let forwarded :=
    [ ("fcst", fcst); ("ax", PVal ANone);
      ("xlabel", PVal (AStr "ds")); ("ylabel", PVal (AStr "y"));
      ("figsize", PTuple [AInt 10; AInt 6]) ] in
  let out := plot [fcst] kw st in
  warnings (snd out) = warnings st ++ [plot_msg]
  /\ plot_calls (snd out) = plot_calls st ++ [forwarded]
  /\ fst out
     = match fst (np_plot forwarded (engine (model st))) with
       | inl e => inl (Raised e)
       | inr _ => inr (PVal ANone)
       end.
Proof.
  intros Hnd Hkeys forwarded out. subst out forwarded.
  unfold plot, bind_arguments.
  change (bind_positional plot_signature [fcst]) with ([("fcst", fcst)], @nil pyobj).
  cbv iota beta.
  destruct (bind_keywords_succeeds plot_signature kw [("fcst", fcst)] Hnd)
    as [bound Hbind].
  { intros k Hk. specialize (Hkeys k Hk). simpl in Hkeys.
    destruct Hkeys as [<- | [<- | [<- | []]]]; split;
      solve [simpl; tauto | reflexivity]. }
  rewrite Hbind.
  assert (Hother : forall k,
             ~ In k ["uncertainty"; "plot_cap"; "include_legend"] ->
             lookup k bound = lookup k [("fcst", fcst)]).
  { intros k Hk. apply (bind_keywords_other _ _ _ _ _ Hbind).
    intros Hin. apply Hk. now apply Hkeys. }
  assert (Hfcst : lookup "fcst" bound = Some fcst)
    by (rewrite Hother; [reflexivity | simpl; intuition discriminate]).
  assert (Hax : lookup "ax" bound = None)
    by (rewrite Hother; [reflexivity | simpl; intuition discriminate]).
  assert (Hx : lookup "xlabel" bound = None)
    by (rewrite Hother; [reflexivity | simpl; intuition discriminate]).
  assert (Hy : lookup "ylabel" bound = None)
    by (rewrite Hother; [reflexivity | simpl; intuition discriminate]).
  assert (Hfig : lookup "figsize" bound = None)
    by (rewrite Hother; [reflexivity | simpl; intuition discriminate]).
  unfold plot_signature, bind_defaults.
  rewrite Hfcst, Hax, Hx, Hy, Hfig.
  destruct (lookup "uncertainty" bound);
    destruct (lookup "plot_cap" bound);
    destruct (lookup "include_legend" bound);
    unfold plot_body; cbn;
    destruct (np_plot _ (engine (model st))) as [[e|fig] e1];
    cbn; auto.
Qed.

End PlotProperties.

(** ** The further properties on concrete models *)

Lemma failed_fit_stores_nothing_witness :
  fst (@fit _ unfit_engine two_day_history [] unfit_model)
  = Err (SpecError UnsupportedFeatureError)
  /\ history (snd (@fit _ unfit_engine two_day_history [] unfit_model))
     = history unfit_model.
Proof.
  split; [reflexivity|].
  exact (proj1 (@failed_fit_stores_nothing _ unfit_engine two_day_history []
                  unfit_model _ eq_refl)).
Defined.


Lemma predict_keeps_every_label_witness :
  no_clash ["df"] [] = Ok tt
  /\ @np_predict _ (engine_returning (engine_table "NewYear"))
       two_future_days []
       (engine (fitted_with (engine_table "NewYear") (one_holiday "NewYear")))
     = (Ok (engine_table "NewYear"),
        engine (fitted_with (engine_table "NewYear") (one_holiday "NewYear")))
  /\ exists R extra,
       forecast_with (engine_table "NewYear") (one_holiday "NewYear") = Ok R
       /\ columns R = columns (engine_table "NewYear") ++ extra.
Proof.
  split; [reflexivity|]. split; [reflexivity|].
  destruct (@predict_keeps_every_label _
              (engine_returning (engine_table "NewYear"))
              two_future_days []
              (fitted_with (engine_table "NewYear") (one_holiday "NewYear"))
              (engine_table "NewYear") _ eq_refl eq_refl)
    as (R & extra & Hrun & Hlabels & _).
  exists R, extra. split; assumption.
Defined.

Lemma predict_without_events_is_engine_table_witness :
  no_clash ["df"] [] = Ok tt
  /\ @np_predict _ (engine_returning plain_table) two_future_days []
       (engine (fitted_with plain_table (one_holiday "NewYear")))
     = (Ok plain_table,
        engine (fitted_with plain_table (one_holiday "NewYear")))
  /\ (forall c, In c (columns plain_table) -> contains "event_" c = false)
  /\ forecast_with plain_table (one_holiday "NewYear") = Ok plain_table.
Proof.
  assert (Hplain : forall c, In c (columns plain_table) ->
                             contains "event_" c = false).
  { intros c [<- | [<- | []]]; reflexivity. }
  split; [reflexivity|]. split; [reflexivity|]. split; [exact Hplain|].
  exact (@predict_without_events_is_engine_table _
           (engine_returning plain_table) two_future_days []
           (fitted_with plain_table (one_holiday "NewYear"))
           plain_table _ eq_refl eq_refl Hplain).
Defined.

Lemma event_copy_has_engine_values_witness :
  copies_are_new (engine_table "NewYear")
  /\ In "event_NewYear" (columns (engine_table "NewYear"))
  /\ contains "event_" "NewYear" = false
  /\ exists R,
       forecast_with (engine_table "NewYear") (one_holiday "NewYear") = Ok R
       /\ getitem R "NewYear" = Ok [AInt 0; AInt 7].
Proof.
  assert (Hnew : copies_are_new (engine_table "NewYear")).
  { intros c Hc Hev. simpl in Hc.
    destruct Hc as [<- | [<- | [<- | []]]]; try discriminate.
    simpl. intuition discriminate. }
  assert (Hin : In "event_NewYear" (columns (engine_table "NewYear")))
    by (simpl; tauto).
  assert (Honly : forall c, In c (columns (engine_table "NewYear")) ->
                            contains "event_" c = true ->
                            replace "event_" "" c = "NewYear" ->
                            c = "event_NewYear").
  { intros c Hc Hev _. simpl in Hc.
    destruct Hc as [<- | [<- | [<- | []]]]; try discriminate. reflexivity. }
  split; [exact Hnew|]. split; [exact Hin|]. split; [reflexivity|].
  destruct (@event_copy_has_engine_values _
              (engine_returning (engine_table "NewYear"))
              two_future_days []
              (fitted_with (engine_table "NewYear") (one_holiday "NewYear"))
              (engine_table "NewYear") _ "NewYear"
              eq_refl eq_refl Hnew Hin eq_refl Honly)
    as (R & Hrun & Hcopy & _).
  exists R. split; [exact Hrun | exact Hcopy].
Defined.

Lemma events_table_of_holidays_witness :
  holidays (with_holidays diwali) = Some diwali
  /\ @construct _ engine0 (with_holidays diwali)
     = (Ok tt, snd (@construct _ engine0 (with_holidays diwali)))
  /\ exists ev,
       events_df (snd (@construct _ engine0 (with_holidays diwali))) = Some ev
       /\ getitem ev "ds" = getitem diwali "ds"
       /\ ~ In "lower_window" (columns ev).
Proof.
  split; [reflexivity|]. split; [reflexivity|].
  destruct (@events_table_of_holidays _ engine0 (with_holidays diwali) diwali
              _ eq_refl eq_refl)
    as (ev & names & Hev & _ & _ & _ & Hlow & _ & Hother).
  exists ev. split; [exact Hev|]. split; [|exact Hlow].
  apply Hother. simpl. intuition discriminate.
Defined.




Lemma engine_failure_stops_construction_witness :
  no_clash (keys (engine_keywords (with_holidays no_names)))
           (extra_kwargs (with_holidays no_names)) = Ok tt
  /\ fst (@np_init _ refusing_engine
            (engine_keywords (with_holidays no_names)
             ++ extra_kwargs (with_holidays no_names))
            (@np_new _ refusing_engine))
     = Err (SpecError ConfigurationError)
  /\ fst (@construct _ refusing_engine (with_holidays no_names))
     = Err (SpecError ConfigurationError).
Proof.
  split; [reflexivity|]. split; [reflexivity|].
  exact (proj1 (@engine_failure_stops_construction _ refusing_engine
                  (with_holidays no_names) _ eq_refl eq_refl)).
Defined.

Lemma events_df_keyword_witness :
  In "events_df" (keys [("events_df", VAtom ANone)])
  /\ (exists k,
         @make_future_dataframe _ engine0 3 "D" true
           [("events_df", VAtom ANone)] new_year_model
         = (Err (TypeError_multiple_values k), new_year_model))
  /\ calls (snd (@make_future_dataframe _ engine0 3 "D" true
                   [("events_df", VAtom ANone)] fitted_model))
     = calls fitted_model
       ++ [Call_make_future_dataframe (history fitted_model) None
             (convert_periods "D" 3) true [("events_df", VAtom ANone)]].
Proof.
  assert (Hkey : In "events_df" (keys [("events_df", VAtom ANone)]))
    by (simpl; tauto).
  split; [exact Hkey|]. split.
  - exact (proj1 (@events_df_keyword _ engine0 3 "D" true
                    [("events_df", VAtom ANone)] new_year_model Hkey)
                 _ eq_refl).
  - refine (proj1 (proj2 (@events_df_keyword _ engine0 3 "D" true
                            [("events_df", VAtom ANone)] fitted_model Hkey)
                         eq_refl _)).
    intros k [<- | []]. simpl. intuition discriminate.
Defined.

Lemma predict_after_fit_uses_fitted_frame_witness :
  fst (@fit _ engine0 twelve_days [] new_year_model) = Ok None
  /\ no_clash ["df"] [] = Ok tt
  /\ exists d before,
       calls (snd (@predict _ engine0 None []
                     (snd (@fit _ engine0 twelve_days [] new_year_model))))
       = before ++ [Call_fit d (del_key "show_progress" []);
                    Call_predict d []].
Proof.
  split; [reflexivity|]. split; [reflexivity|].
  destruct (@predict_after_fit_uses_fitted_frame _ engine0 twelve_days [] []
              new_year_model None eq_refl eq_refl)
    as (d & before & Hcalls & _).
  exists d, before. exact Hcalls.
Defined.



Lemma plot_drops_unsupported_attributes_witness :
  NoDup (map fst [("uncertainty", PVal (VAtom (ABool false)))])
  /\ (forall k, In k (map fst [("uncertainty", PVal (VAtom (ABool false)))]) ->
                In k ["uncertainty"; "plot_cap"; "include_legend"])
  /\ fst (@plot _ plotting_engine [PFrame plain_table]
            [("uncertainty", PVal (VAtom (ABool false)))] new_plotting)
     = inr (PVal (VAtom ANone)).
Proof.
  assert (Hnd : NoDup (map fst [("uncertainty", PVal (VAtom (ABool false)))])).
  { constructor; [intros [] | constructor]. }
  assert (Hkeys : forall k,
             In k (map fst [("uncertainty", PVal (VAtom (ABool false)))]) ->
             In k ["uncertainty"; "plot_cap"; "include_legend"]).
  { intros k [<- | []]. simpl. tauto. }
  split; [exact Hnd|]. split; [exact Hkeys|].
  exact (proj2 (proj2 (@plot_drops_unsupported_attributes _ plotting_engine
                         (PFrame plain_table)
                         [("uncertainty", PVal (VAtom (ABool false)))]
                         new_plotting Hnd Hkeys))).
Defined.
